(** * White Goods CMS API: the document CRUD and identity-mapping layer

    A shallow embedding of [main.py]: the identifier codec the handlers use
    ([bson.ObjectId]), the pydantic models, the admin gate, the product,
    settings and contact handlers over a document store, and the properties
    the specification states about them. *)

From Stdlib Require Import ZArith Lia List Ascii String.
From Stdlib.Strings Require Import Byte.
From Stdlib Require Import PrimFloat FloatOps SpecFloat.
From stdpp Require Import base option list gmap strings.

Local Open Scope string_scope.

(** ** Exceptions and outcomes *)

(** The exceptions the handlers raise or let through. *)
Inductive Exn : Type :=
| HTTPException (status_code : Z) (detail : string)
| RequestValidationError (locs : list string)
| ValidationError (title : string) (locs : list string)
| ValueError (msg : string)
| TypeError (msg : string)
| InvalidId (oid : string)
| AttributeError (msg : string)
| Exception (msg : string).

(** What a call produces: the value it returns or the exception it raises. *)
Inductive outcome (A : Type) : Type :=
| Return (a : A)
| Raise (e : Exn).

Arguments Return {A} a.
Arguments Raise {A} e.

(** The status of an answer that an [HTTPException] fixes. Every other
    outcome is rendered by the framework first (the returned model, the
    validation errors), and the rendering, which is not modelled, decides
    the status. *)
Definition status_of {A} (o : outcome A) : option Z :=
  match o with
  | Raise (HTTPException code _) => Some code
  | _ => None
  end.

(** ** Identifier codec: [bson.ObjectId] *)

(** [binascii.hexlify]: two lower-case hexadecimal digits per byte. *)
Definition hex_digit (n : N) : ascii :=
  nth (N.to_nat n) (list_ascii_of_string "0123456789abcdef") "0"%char.

Definition hexlify_byte (b : byte) (rest : string) : string :=
  String (hex_digit (Byte.to_N b / 16)) (String (hex_digit (Byte.to_N b mod 16)) rest).

Fixpoint hexlify (bs : list byte) : string :=
  match bs with
  | [] => ""
  | b :: rest => hexlify_byte b (hexlify rest)
  end.

(** The value of a hexadecimal digit, in either case ([_PyLong_DigitValue]
    below 16). *)
Definition digit_value (c : ascii) : option N :=
  let n := N_of_ascii c in
  if (48 <=? n)%N && (n <=? 57)%N then Some (n - 48)%N
  else if (97 <=? n)%N && (n <=? 102)%N then Some (n - 87)%N
  else if (65 <=? n)%N && (n <=? 70)%N then Some (n - 55)%N
  else None.

(** [Py_ISSPACE]: space, tab, line feed, vertical tab, form feed, carriage
    return. *)
Definition Py_ISSPACE (c : ascii) : bool :=
  let n := N_of_ascii c in
  (n =? 32)%N || ((9 <=? n)%N && (n <=? 13)%N).

Definition byte_of_N (n : N) : byte :=
  match Byte.of_N n with
  | Some b => b
  | None => x00
  end.

(** [bytes.fromhex]: pairs of hexadecimal digits, ASCII whitespace skipped
    before a pair; [None] stands for its [ValueError]. *)
Fixpoint fromhex (s : string) : option (list byte) :=
  match s with
  | EmptyString => Some []
  | String c s1 =>
      if Py_ISSPACE c then fromhex s1
      else
        match digit_value c, s1 with
        | Some top, String c2 s2 =>
            match digit_value c2 with
            | Some bot => option_map (cons (byte_of_N (top * 16 + bot))) (fromhex s2)
            | None => None
            end
        | _, _ => None
        end
  end.

(** An [ObjectId] holds its binary value. *)
Record ObjectId : Type := mkObjectId { binary : list byte }.

#[global] Instance byte_eq_dec : EqDecision byte := Byte.byte_eq_dec.

(** [ObjectId.__eq__] compares the binary values. *)
Definition ObjectId_eqb (a b : ObjectId) : bool :=
  bool_decide (binary a = binary b).

(** [ObjectId(oid)] for a [str]: 24 characters that [bytes.fromhex] reads,
    [InvalidId] otherwise. *)
Definition ObjectId_new (oid : string) : outcome ObjectId :=
  if (String.length oid =? 24)%nat then
    match fromhex oid with
    | Some b => Return (mkObjectId b)
    | None => Raise (InvalidId oid)
    end
  else Raise (InvalidId oid).

(** [ObjectId.is_valid(oid)]: false for an empty value, otherwise whether
    [ObjectId(oid)] raises. *)
Definition ObjectId_is_valid (oid : string) : bool :=
  match oid with
  | EmptyString => false
  | _ => match ObjectId_new oid with
         | Return _ => true
         | Raise _ => false
         end
  end.

(** [str(oid)]. *)
Definition ObjectId_str (oid : ObjectId) : string := hexlify (binary oid).

(** [PyObjectId.validate(v)]: [v] is an [ObjectId] already, or a text. *)
Definition PyObjectId_validate (v : ObjectId + string) : outcome ObjectId :=
  match v with
  | inl oid => Return oid
  | inr s =>
      if negb (ObjectId_is_valid s) then Raise (ValueError "Invalid ObjectId")
      else ObjectId_new s
  end.

(** [str.lower] on ASCII text. *)
Definition ascii_lower (c : ascii) : ascii :=
  let n := N_of_ascii c in
  if (65 <=? n)%N && (n <=? 90)%N then ascii_of_N (n + 32) else c.

Fixpoint lower (s : string) : string :=
  match s with
  | EmptyString => EmptyString
  | String c r => String (ascii_lower c) (lower r)
  end.

Definition is_hex_digit (c : ascii) : bool :=
  match digit_value c with Some _ => true | None => false end.

Fixpoint all_chars (p : ascii -> bool) (s : string) : bool :=
  match s with
  | EmptyString => true
  | String c r => p c && all_chars p r
  end.

(** ** Python values and dicts *)

(** The values a JSON body or a stored document holds. *)
#[warnings="-register-all"]
Inductive value : Type :=
| VNone
| VBool (b : bool)
| VInt (z : Z)
| VFloat (f : float)
| VStr (s : string)
| VList (l : list value).

(** A [dict] with text keys: keyword arguments, a [model_dump()], the
    fields of a stored document. *)
Abbreviation document := (gmap string value).

(** [float(z)] for an [int]: the nearest binary64 value. *)
Definition float_of_Z (z : Z) : float :=
  SF2Prim (binary_normalize 53 1024 z 0 false).

(** [not x] for an [Optional[str]]. *)
Definition falsy (x : option string) : bool :=
  match x with
  | Some (String _ _) => false
  | _ => true
  end.

(** [a or b] for two [Optional[str]]. *)
Definition py_or (a b : option string) : option string :=
  if falsy a then b else a.

(** [os.getenv(key)] and [os.getenv(key, default)]. *)
Definition getenv (environ : gmap string string) (key : string) : option string :=
  environ !! key.

Definition getenv_default (environ : gmap string string) (key dflt : string) : string :=
  default dflt (environ !! key).

(** ** The pydantic models *)

Module ProductCreate.
Record t : Type := mk {
  name : string;
  brand : string;
  description : option string;
  price : float;
  image_url : option string;
  category : option string;
  in_stock : bool;
  features : option (list string)
}.
End ProductCreate.

(** [class Product(ProductCreate)]: the inherited fields and [id]. *)
Module Product.
Record t : Type := mk {
  fields : ProductCreate.t;
  id : string
}.
End Product.

Module ContactMessageIn.
Record t : Type := mk {
  name : string;
  email : string;
  message : string
}.
End ContactMessageIn.

Module SiteSettings.
Record t : Type := mk {
  hero_title : string;
  hero_subtitle : string;
  contact_email : option string;
  phone : option string;
  address : option string
}.
End SiteSettings.

(** ** The document store *)

(** A stored document: the [ObjectId] the store keeps under [_id] and the
    other fields. *)
Record StoredDoc : Type := mkStoredDoc {
  _id : ObjectId;
  doc_fields : document
}.

(** The calls the driver receives. *)
Inductive StoreOp : Type :=
| OpInsertOne (coll : string)
| OpFind (coll : string)
| OpFindOne (coll : string)
| OpUpdateOne (coll : string)
| OpDeleteOne (coll : string).

(** The database: its collections in store order, the counter the next
    [ObjectId] is made from, and the calls received so far (latest first). *)
Record Database : Type := mkDatabase {
  collections : gmap string (list StoredDoc);
  counter : N;
  oplog : list StoreOp
}.

(** The [n] low bytes of [v], most significant first. *)
Fixpoint be_bytes (n : nat) (v : N) : list byte :=
  match n with
  | O => []
  | S m => (be_bytes m (v / 256) ++ [byte_of_N (v mod 256)])%list
  end.

Module Collection.

Definition docs (D : Database) (coll : string) : list StoredDoc :=
  default [] (collections D !! coll).

Definition logged (op : StoreOp) (D : Database) : Database :=
  mkDatabase (collections D) (counter D) (op :: oplog D).

(** [insert_one(doc)]: the document is appended under a new 12-byte
    [ObjectId]; the result is [inserted_id]. *)
Definition insert_one (coll : string) (doc : document) (D : Database)
  : ObjectId * Database :=
  let oid := mkObjectId (be_bytes 12 (counter D)) in
  (oid,
   mkDatabase (<[coll := (docs D coll ++ [mkStoredDoc oid doc])%list]> (collections D))
              (counter D + 1) (OpInsertOne coll :: oplog D)).

(** [find({})]: every document, in store order. *)
Definition find (coll : string) (D : Database) : list StoredDoc * Database :=
  (docs D coll, logged (OpFind coll) D).

Definition matches (query : option ObjectId) (d : StoredDoc) : bool :=
  match query with
  | None => true
  | Some oid => ObjectId_eqb (_id d) oid
  end.

(** [find_one(query)]: the first document that matches; the query is [{}]
    ([None]) or [{"_id": oid}]. *)
Definition find_one (coll : string) (query : option ObjectId) (D : Database)
  : option StoredDoc * Database :=
  (List.find (matches query) (docs D coll), logged (OpFindOne coll) D).

(** [{"$set": upd}] on the first document with this [_id]: the fields of
    [upd] replace or extend the document's, its other fields stay. *)
Fixpoint set_first (oid : ObjectId) (upd : document) (l : list StoredDoc)
  : option (list StoredDoc) :=
  match l with
  | [] => None
  | d :: rest =>
      if ObjectId_eqb (_id d) oid
      then Some (mkStoredDoc (_id d) (upd ∪ doc_fields d) :: rest)
      else cons d <$> set_first oid upd rest
  end.

(** [update_one({"_id": oid}, {"$set": upd})]: the result is
    [matched_count]. *)
Definition update_one (coll : string) (oid : ObjectId) (upd : document) (D : Database)
  : nat * Database :=
  match set_first oid upd (docs D coll) with
  | Some l =>
      (1%nat, mkDatabase (<[coll := l]> (collections D)) (counter D)
                         (OpUpdateOne coll :: oplog D))
  | None => (0%nat, logged (OpUpdateOne coll) D)
  end.

Fixpoint remove_first (oid : ObjectId) (l : list StoredDoc) : option (list StoredDoc) :=
  match l with
  | [] => None
  | d :: rest =>
      if ObjectId_eqb (_id d) oid then Some rest
      else cons d <$> remove_first oid rest
  end.

(** [delete_one({"_id": oid})]: the result is [deleted_count]. *)
Definition delete_one (coll : string) (oid : ObjectId) (D : Database)
  : nat * Database :=
  match remove_first oid (docs D coll) with
  | Some l =>
      (1%nat, mkDatabase (<[coll := l]> (collections D)) (counter D)
                         (OpDeleteOne coll :: oplog D))
  | None => (0%nat, logged (OpDeleteOne coll) D)
  end.

End Collection.

(** ** Handlers as state transformers

    The state is the module-level [db]: a [Database], or [None] when the
    store was not reached at start-up. *)
Definition M (A : Type) : Type := option Database -> outcome A * option Database.

Definition ret {A} (a : A) : M A := fun s => (Return a, s).

Definition raise {A} (e : Exn) : M A := fun s => (Raise e, s).

Definition bind {A B} (c : M A) (k : A -> M B) : M B :=
  fun s =>
    match c s with
    | (Return a, s') => k a s'
    | (Raise e, s') => (Raise e, s')
    end.

Definition lift {A} (o : outcome A) : M A := fun s => (o, s).

Notation "'let*' x ':=' c 'in' k" := (bind c (fun x => k))
  (at level 10, x name, c at level 100, k at level 200, only parsing).

(** [db[coll].call(...)]: subscripting [None] is a [TypeError]. *)
Definition on_db {A} (call : Database -> A * Database) : M A :=
  fun s =>
    match s with
    | None => (Raise (TypeError "'NoneType' object is not subscriptable"), None)
    | Some D => let (a, D') := call D in (Return a, Some D')
    end.

(** Modelled from the spec: [database.create_document], which is not among
    the sources. It inserts the document into the named collection and
    returns the text of the identifier the store assigned; a pydantic model
    is passed as its [model_dump()]. Without a store it raises. *)
Definition create_document (collection_name : string) (data : document) : M string :=
  fun s =>
    match s with
    | None => (Raise (Exception "Database not available"), None)
    | Some D =>
        let (oid, D') := Collection.insert_one collection_name data D in
        (Return (ObjectId_str oid), Some D')
    end.

(** Modelled from the spec: [database.get_documents], which is not among
    the sources. It reads every document of the named collection, in store
    order. Without a store it raises. *)
Definition get_documents (collection_name : string) : M (list StoredDoc) :=
  fun s =>
    match s with
    | None => (Raise (Exception "Database not available"), None)
    | Some D =>
        let (l, D') := Collection.find collection_name D in (Return l, Some D')
    end.

(** ** The admin gate *)

Definition admin_token_required (environ : gmap string string)
    (x_admin_token : option string) : outcome bool :=
  let admin_token := getenv environ "ADMIN_TOKEN" in
  if falsy admin_token then
    Raise (HTTPException 500 "ADMIN_TOKEN not configured on server")
  else if negb (bool_decide (x_admin_token = admin_token)) then
    Raise (HTTPException 401 "Invalid admin token")
  else Return true.

(** ** Field validation *)

(** A [str] field takes text only. *)
Definition str_validate (v : value) : option string :=
  match v with
  | VStr s => Some s
  | _ => None
  end.

(** [Optional[T]]: [None], or what [T] takes. *)
Definition optional {A} (validate : value -> option A) (v : value) : option (option A) :=
  match v with
  | VNone => Some None
  | _ => Some <$> validate v
  end.

(** [List[str]]. *)
Definition list_str_validate (v : value) : option (list string) :=
  match v with
  | VList l => mapM str_validate l
  | _ => None
  end.

(** [Field(ge=bound)]. *)
Definition ge (bound f : float) : option float :=
  if (bound <=? f)%float then Some f else None.

(** A field with no default must be among the keyword arguments; a field
    with one takes it when absent. *)
Definition required {A} (validate : value -> option A) (kw : document) (key : string)
  : option A :=
  kw !! key ≫= validate.

Definition with_default {A} (validate : value -> option A) (dflt : A)
    (kw : document) (key : string) : option A :=
  match kw !! key with
  | Some v => validate v
  | None => Some dflt
  end.

Definition passed {A} (x : option A) : bool :=
  match x with
  | Some _ => true
  | None => false
  end.

(** The fields a [ValidationError] reports, in declaration order. *)
Definition failed_locs (checks : list (string * bool)) : list string :=
  map fst (List.filter (fun c => negb (snd c)) checks).

Definition dump_optional (x : option string) : value :=
  match x with
  | Some s => VStr s
  | None => VNone
  end.

(** [payload.model_dump()] for a [ProductCreate]. *)
Definition ProductCreate_model_dump (p : ProductCreate.t) : document :=
  <["name" := VStr (ProductCreate.name p)]>
  (<["brand" := VStr (ProductCreate.brand p)]>
  (<["description" := dump_optional (ProductCreate.description p)]>
  (<["price" := VFloat (ProductCreate.price p)]>
  (<["image_url" := dump_optional (ProductCreate.image_url p)]>
  (<["category" := dump_optional (ProductCreate.category p)]>
  (<["in_stock" := VBool (ProductCreate.in_stock p)]>
  (<["features" := match ProductCreate.features p with
                   | Some l => VList (VStr <$> l)
                   | None => VNone
                   end]> ∅))))))).

Definition SiteSettings_model_dump (s : SiteSettings.t) : document :=
  <["hero_title" := VStr (SiteSettings.hero_title s)]>
  (<["hero_subtitle" := VStr (SiteSettings.hero_subtitle s)]>
  (<["contact_email" := dump_optional (SiteSettings.contact_email s)]>
  (<["phone" := dump_optional (SiteSettings.phone s)]>
  (<["address" := dump_optional (SiteSettings.address s)]> ∅)))).

Definition ContactMessageIn_model_dump (c : ContactMessageIn.t) : document :=
  <["name" := VStr (ContactMessageIn.name c)]>
  (<["email" := VStr (ContactMessageIn.email c)]>
  (<["message" := VStr (ContactMessageIn.message c)]> ∅)).

(** The document read from the store as keyword arguments, after
    [d["id"] = str(d.pop("_id"))]. *)
Definition with_id (d : StoredDoc) : document :=
  <["id" := VStr (ObjectId_str (_id d))]> (doc_fields d).

(** ** Mail *)

Record EmailMessage : Type := mkEmailMessage {
  Subject : string;
  From : string;
  To : string;
  content : string
}.

(** What the mail libraries do on one submission: each step gives the text
    of the exception it raises, or [None] when it goes through. *)
Record Mail : Type := mkMail {
  build : EmailMessage -> option string;
  SMTP : string -> Z -> option string;
  starttls : option string;
  login : string -> string -> option string;
  send_message : EmailMessage -> option string;
  quit : option string
}.

(** The body of the answer to a contact submission. *)
Record ContactReply : Type := mkContactReply {
  stored : bool;
  email_sent : bool;
  error : option string
}.

Definition nl : string := String (ascii_of_N 10) "".

(** What the answer of a gated endpoint carries. *)
Inductive Reply : Type :=
| ProductReply (p : Product.t)
| SuccessReply (success : bool)
| SettingsReply (s : SiteSettings.t).

(** What reading the request body gives, for a route that declares one:
    [request.json()] raises [JSONDecodeError], or another exception, or
    gives a JSON object; anything else (no body, JSON that is not an
    object, another content type) is left for validation to refuse. *)
Inductive Body : Type :=
| BodyInvalidJson
| BodyUnreadable
| BodyObject (kw : document)
| BodyOther.

(** The calls behind the admin gate. Delete declares no body. *)
Inductive MutatingCall : Type :=
| POST_products (body : Body)
| PUT_products (product_id : string) (body : Body)
| DELETE_products (product_id : string)
| PUT_settings (body : Body).

Definition body_of (call : MutatingCall) : option Body :=
  match call with
  | POST_products body => Some body
  | PUT_products _ body => Some body
  | DELETE_products _ => None
  | PUT_settings body => Some body
  end.

(** The framework reads the body before it resolves the dependencies: a
    body that is not JSON ends the request there as a request validation
    failure, any other failure to read it as a 400. *)
Definition body_failure (call : MutatingCall) : option Exn :=
  match body_of call with
  | Some BodyInvalidJson => Some (RequestValidationError ["body"])
  | Some BodyUnreadable =>
      Some (HTTPException 400 "There was an error parsing the body")
  | _ => None
  end.

(** ** The connectivity report *)

(** The answer of [test_database]. *)
Module TestReport.
Record t : Type := mk {
  backend : string;
  database : string;
  database_url : option string;
  database_name : option string;
  connection_status : string;
  collections : list string
}.
End TestReport.

(** Text is held as its UTF-8 bytes: a character starts at every byte
    that is not a continuation byte. *)
Definition is_continuation (c : ascii) : bool :=
  let n := N_of_ascii c in (128 <=? n)%N && (n <=? 191)%N.

(** [len(s)]. *)
Fixpoint char_count (s : string) : nat :=
  match s with
  | EmptyString => O
  | String c r => if is_continuation c then char_count r else S (char_count r)
  end.

(** [s[:n]]: the first [n] characters, each with all of its bytes. *)
Fixpoint prefix (n : nat) (s : string) : string :=
  match s with
  | EmptyString => EmptyString
  | String c r =>
      if is_continuation c then String c (prefix n r)
      else
        match n with
        | O => EmptyString
        | S m => String c (prefix m r)
        end
  end.

(** [test_database()]. [db] is the module-level handle and [listing] what
    [db.list_collection_names()] gives when called: the names, or the text
    of the exception it raises. Reading the environment does not raise, so
    the outer [except] clause is never entered. *)
Definition test_database (environ : gmap string string) (db : option Database)
    (listing : string + list string) : TestReport.t :=
  match db with
  | Some _ =>
      let database_url :=
        Some (if falsy (getenv environ "DATABASE_URL") then "❌ Not Set" else "✅ Set") in
      let database_name :=
        py_or (getenv environ "DATABASE_NAME") (Some "") in
      match listing with
      | inr collections =>
          TestReport.mk "✅ Running" "✅ Connected & Working" database_url database_name
                        "Connected" collections
      | inl e =>
          TestReport.mk "✅ Running" ("⚠️ Connected but Error: " +:+ prefix 80 e)
                        database_url database_name "Not Connected" []
      end
  | None =>
      TestReport.mk "✅ Running" "⚠️ Available but not initialized" None None
                    "Not Connected" []
  end.

Section Backend.

(** What the libraries decide and this development leaves open: pydantic's
    lax coercion of a value of another kind to a float or to a bool (numeric
    text, yes/no and the like), the address check behind [EmailStr] (it gives
    the normalised address), and [int] on a text: the number it reads, and
    the text of the [ValueError] it raises for a text it does not read. *)
Variable lax_float : value -> option float.
Variable lax_bool : value -> option bool.
Variable validate_email : string -> option string.
Variable int_of_str : string -> option Z.
Variable int_error : string -> string.

Set Default Proof Using "Type".


(** A [float] field takes a float as it is and an integer as its float
    value, unless the integer is too large for [float] to hold. *)
Definition float_validate (v : value) : option float :=
  match v with
  | VFloat f => Some f
  | VInt z => if is_infinity (float_of_Z z) then None else Some (float_of_Z z)
  | _ => lax_float v
  end.

Definition bool_validate (v : value) : option bool :=
  match v with
  | VBool b => Some b
  | _ => lax_bool v
  end.

Definition EmailStr_validate (v : value) : option string :=
  match v with
  | VStr s => validate_email s
  | _ => None
  end.

(** The eight fields [ProductCreate] declares, validated from keyword
    arguments; keys it does not declare are ignored. *)
Definition ProductCreate_fields (kw : document) : ProductCreate.t + list string :=
  let name := required str_validate kw "name" in
  let brand := required str_validate kw "brand" in
  let description := with_default (optional str_validate) None kw "description" in
  let price := required (fun v => float_validate v ≫= ge 0) kw "price" in
  let image_url := with_default (optional str_validate) None kw "image_url" in
  let category := with_default (optional str_validate) None kw "category" in
  let in_stock := with_default bool_validate true kw "in_stock" in
  let features := with_default (optional list_str_validate) (Some []) kw "features" in
  match name, brand, description, price, image_url, category, in_stock, features with
  | Some n, Some b, Some d, Some p, Some i, Some c, Some s, Some f =>
      inl (ProductCreate.mk n b d p i c s f)
  | _, _, _, _, _, _, _, _ =>
      inr (failed_locs
             [("name", passed name); ("brand", passed brand);
              ("description", passed description); ("price", passed price);
              ("image_url", passed image_url); ("category", passed category);
              ("in_stock", passed in_stock); ("features", passed features)])
  end.

(** [ProductCreate] constructed from keyword arguments. *)
Definition ProductCreate_new (kw : document) : outcome ProductCreate.t :=
  match ProductCreate_fields kw with
  | inl p => Return p
  | inr locs => Raise (ValidationError "ProductCreate" locs)
  end.

(** [Product] constructed from keyword arguments. *)
Definition Product_new (kw : document) : outcome Product.t :=
  match ProductCreate_fields kw, required str_validate kw "id" with
  | inl p, Some i => Return (Product.mk p i)
  | inl _, None => Raise (ValidationError "Product" ["id"])
  | inr locs, i =>
      Raise (ValidationError "Product" (locs ++ failed_locs [("id", passed i)])%list)
  end.

(** [SiteSettings] constructed from keyword arguments. *)
Definition SiteSettings_new (kw : document) : outcome SiteSettings.t :=
  let hero_title := with_default str_validate "Premium White Goods" kw "hero_title" in
  let hero_subtitle :=
    with_default str_validate "Reliable appliances for every home." kw "hero_subtitle" in
  let contact_email := with_default (optional EmailStr_validate) None kw "contact_email" in
  let phone := with_default (optional str_validate) None kw "phone" in
  let address := with_default (optional str_validate) None kw "address" in
  match hero_title, hero_subtitle, contact_email, phone, address with
  | Some t, Some s, Some e, Some p, Some a => Return (SiteSettings.mk t s e p a)
  | _, _, _, _, _ =>
      Raise (ValidationError "SiteSettings"
               (failed_locs
                  [("hero_title", passed hero_title); ("hero_subtitle", passed hero_subtitle);
                   ("contact_email", passed contact_email); ("phone", passed phone);
                   ("address", passed address)]))
  end.

(** ** Products CRUD *)

(** The loop of [list_products]: every document becomes a [Product] and is
    appended to [result]; the first that fails validation ends the call. *)
Fixpoint list_products_loop (docs : list StoredDoc) (result : list Product.t)
  : outcome (list Product.t) :=
  match docs with
  | [] => Return result
  | d :: rest =>
      match Product_new (with_id d) with
      | Return p => list_products_loop rest (result ++ [p])%list
      | Raise e => Raise e
      end
  end.

Definition list_products : M (list Product.t) :=
  let* docs := get_documents "product" in
  lift (list_products_loop docs []).

Definition create_product (payload : ProductCreate.t) : M Product.t :=
  let doc := ProductCreate_model_dump payload in
  let* inserted_id := create_document "product" doc in
  let doc_out := <["id" := VStr inserted_id]> doc in
  lift (Product_new doc_out).

Definition update_product (product_id : string) (payload : ProductCreate.t) : M Product.t :=
  if negb (ObjectId_is_valid product_id) then
    raise (HTTPException 400 "Invalid product id")
  else
    let* oid := lift (ObjectId_new product_id) in
    let* matched_count := on_db (Collection.update_one "product" oid
                              (ProductCreate_model_dump payload)) in
    if (matched_count =? 0)%nat then raise (HTTPException 404 "Product not found")
    else
      let* updated := on_db (Collection.find_one "product" (Some oid)) in
      match updated with
      | Some d => lift (Product_new (with_id d))
      | None => raise (AttributeError "'NoneType' object has no attribute 'pop'")
      end.

Definition delete_product (product_id : string) : M bool :=
  if negb (ObjectId_is_valid product_id) then
    raise (HTTPException 400 "Invalid product id")
  else
    let* oid := lift (ObjectId_new product_id) in
    let* deleted_count := on_db (Collection.delete_one "product" oid) in
    if (deleted_count =? 0)%nat then raise (HTTPException 404 "Product not found")
    else ret true.

(** ** Site settings *)

Definition get_settings : M SiteSettings.t :=
  let* doc := on_db (Collection.find_one "sitesettings" None) in
  match doc with
  | None =>
      let* default := lift (SiteSettings_new ∅) in
      let* _ := create_document "sitesettings" (SiteSettings_model_dump default) in
      ret default
  | Some d => lift (SiteSettings_new (doc_fields d))
  end.

Definition update_settings (payload : SiteSettings.t) : M SiteSettings.t :=
  let* existing := on_db (Collection.find_one "sitesettings" None) in
  match existing with
  | None =>
      let* _ := create_document "sitesettings" (SiteSettings_model_dump payload) in
      ret payload
  | Some d =>
      let* _ := on_db (Collection.update_one "sitesettings" (_id d)
                    (SiteSettings_model_dump payload)) in
      ret payload
  end.

(** ** Contact form *)

(** The message the handler builds. *)
Definition contact_message (payload : ContactMessageIn.t) (smtp_user : option string)
    (to_email : string) : EmailMessage :=
  mkEmailMessage
    ("New contact message from " +:+ ContactMessageIn.name payload)
    (if falsy smtp_user then to_email else default "" smtp_user)
    to_email
    ("Name: " +:+ ContactMessageIn.name payload +:+ nl +:+
     "Email: " +:+ ContactMessageIn.email payload +:+ nl +:+ nl +:+
     "Message:" +:+ nl +:+ ContactMessageIn.message payload).

(** [server.login(smtp_user, smtp_pass)], done when both are set. *)
Definition login_step (mail : Mail) (smtp_user smtp_pass : option string) : option string :=
  if falsy smtp_user || falsy smtp_pass then None
  else login mail (default "" smtp_user) (default "" smtp_pass).

(** The [try] block of [send_contact_message]: the message is built, the
    connection opened, and inside the [with] block the transport secured,
    the login done, the message sent and [sent] set. Leaving the [with]
    block closes the session, which may raise as well. The result is
    [(sent, error)] as the [except] clause leaves them. *)
Definition try_send (mail : Mail) (payload : ContactMessageIn.t)
    (smtp_host : string) (smtp_port : Z) (smtp_user smtp_pass : option string)
    (to_email : string) : bool * option string :=
  let msg := contact_message payload smtp_user to_email in
  match build mail msg with
  | Some e => (false, Some e)
  | None =>
      match SMTP mail smtp_host smtp_port with
      | Some e => (false, Some e)
      | None =>
          let body :=
            match starttls mail with
            | Some e => Some e
            | None =>
                match login_step mail smtp_user smtp_pass with
                | Some e => Some e
                | None => send_message mail msg
                end
            end in
          let sent := negb (passed body) in
          match quit mail with
          | Some e => (sent, Some e)
          | None => (sent, body)
          end
      end
  end.

Definition send_contact_message (environ : gmap string string) (mail : Mail)
    (payload : ContactMessageIn.t) : M ContactReply :=
  let* _ := create_document "contactmessage" (ContactMessageIn_model_dump payload) in
  let smtp_host := getenv environ "SMTP_HOST" in
  match int_of_str (getenv_default environ "SMTP_PORT" "587") with
  | None => raise (ValueError (int_error (getenv_default environ "SMTP_PORT" "587")))
  | Some smtp_port =>
      let smtp_user := getenv environ "SMTP_USER" in
      let smtp_pass := getenv environ "SMTP_PASS" in
      let to_email :=
        py_or (getenv environ "CONTACT_TO_EMAIL") (getenv environ "SMTP_USER") in
      let '(sent, error) :=
        if falsy smtp_host || falsy to_email
        then (false, Some "SMTP not configured on server")
        else try_send mail payload (default "" smtp_host) smtp_port smtp_user smtp_pass
                      (default "" to_email) in
      ret (mkContactReply true sent error)
  end.

(** ** The gated endpoints *)

(** A request body validated against the model the handler declares: a
    failure is the request's, a request validation failure. *)
Definition body_as {A} (model : document -> outcome A) (body : Body) : M A :=
  match body with
  | BodyObject kw =>
      match model kw with
      | Return a => ret a
      | Raise (ValidationError _ locs) => raise (RequestValidationError locs)
      | Raise e => raise e
      end
  | _ => raise (RequestValidationError ["body"])
  end.

(** A gated route. The body is read first; then
    [dependencies=[Depends(admin_token_required)]] runs the gate; the body
    is validated and the handler called only when the gate returns. *)
Definition mutating (environ : gmap string string) (x_admin_token : option string)
    (call : MutatingCall) : M Reply :=
  match body_failure call with
  | Some e => raise e
  | None =>
      match admin_token_required environ x_admin_token with
      | Raise e => raise e
      | Return _ =>
          match call with
          | POST_products body =>
              let* payload := body_as ProductCreate_new body in
              let* p := create_product payload in
              ret (ProductReply p)
          | PUT_products product_id body =>
              let* payload := body_as ProductCreate_new body in
              let* p := update_product product_id payload in
              ret (ProductReply p)
          | DELETE_products product_id =>
              let* ok := delete_product product_id in
              ret (SuccessReply ok)
          | PUT_settings body =>
              let* payload := body_as SiteSettings_new body in
              let* s := update_settings payload in
              ret (SettingsReply s)
          end
      end
  end.

(** ** Shapes, as the specification words them *)

(** The fields [ProductCreate] declares. *)
Definition product_keys : list string :=
  ["name"; "brand"; "description"; "price"; "image_url"; "category"; "in_stock";
   "features"].

(** A [ProductCreate] that validation can have produced: [price >= 0]. *)
Definition ProductCreate_valid (p : ProductCreate.t) : Prop :=
  (0 <=? ProductCreate.price p)%float = true.

Definition text_if_present (kw : document) (key : string) : Prop :=
  kw !! key = None \/ kw !! key = Some VNone \/ exists s, kw !! key = Some (VStr s).

(** The inputs the product shape takes: name and brand are text, price is
    a number that is at least 0, description, image_url and category are
    text when present, in_stock is a boolean when present and features a
    sequence of text when present. *)
Definition ProductCreate_accepts (kw : document) : Prop :=
  (exists s, kw !! "name" = Some (VStr s))
  /\ (exists s, kw !! "brand" = Some (VStr s))
  /\ text_if_present kw "description"
  /\ (exists v f, kw !! "price" = Some v /\ float_validate v = Some f
                  /\ (0 <=? f)%float = true)
  /\ text_if_present kw "image_url"
  /\ text_if_present kw "category"
  /\ (kw !! "in_stock" = None
      \/ exists v b, kw !! "in_stock" = Some v /\ bool_validate v = Some b)
  /\ (kw !! "features" = None \/ kw !! "features" = Some VNone
      \/ exists l : list string, kw !! "features" = Some (VList (VStr <$> l))).

(** The same shape with the price and the stock flag spelled out by the
    kind of value the payload holds: a float that is at least 0; an
    integer that [float] can hold and whose float value is at least 0; a
    value of another kind that lax coercion reads as a float that is at
    least 0. The stock flag is a boolean, or a value of another kind that
    lax coercion reads as one. *)
Definition price_taken (v : value) : Prop :=
  match v with
  | VFloat f => (0 <=? f)%float = true
  | VInt z =>
      is_infinity (float_of_Z z) = false /\ (0 <=? float_of_Z z)%float = true
  | _ => exists f, lax_float v = Some f /\ (0 <=? f)%float = true
  end.

Definition in_stock_taken (v : value) : Prop :=
  match v with
  | VBool _ => True
  | _ => exists b, lax_bool v = Some b
  end.

Definition ProductCreate_takes (kw : document) : Prop :=
  (exists s, kw !! "name" = Some (VStr s))
  /\ (exists s, kw !! "brand" = Some (VStr s))
  /\ text_if_present kw "description"
  /\ (exists v, kw !! "price" = Some v /\ price_taken v)
  /\ text_if_present kw "image_url"
  /\ text_if_present kw "category"
  /\ (kw !! "in_stock" = None
      \/ exists v, kw !! "in_stock" = Some v /\ in_stock_taken v)
  /\ (kw !! "features" = None \/ kw !! "features" = Some VNone
      \/ exists l : list string, kw !! "features" = Some (VList (VStr <$> l))).

(** Inside the [with] block a step raises [e]: securing the transport, or
    after it the login, or after both the sending. *)
Definition session_fails (mail : Mail) (msg : EmailMessage)
    (smtp_user smtp_pass : option string) (e : string) : Prop :=
  starttls mail = Some e
  \/ (starttls mail = None /\ login_step mail smtp_user smtp_pass = Some e)
  \/ (starttls mail = None /\ login_step mail smtp_user smtp_pass = None
      /\ send_message mail msg = Some e).

(** The defaults [SiteSettings] declares. *)
Definition SiteSettings_defaults : SiteSettings.t :=
  SiteSettings.mk "Premium White Goods" "Reliable appliances for every home."
                  None None None.

(** [n] calls of a handler in a row: the outcome of the last one and the
    state it leaves. *)
Fixpoint repeat_call {A} (c : M A) (n : nat) (s : option Database)
  : outcome A * option Database :=
  match n with
  | O => c s
  | S m => repeat_call c m (snd (c s))
  end.

(** ** Proof steps *)

(** Proofs start from the library behaviours their statement names. *)
Ltac statement_only :=
  try clear int_error; try clear int_of_str; try clear validate_email;
  try clear lax_bool; try clear lax_float.

(** Case analysis on the eight field checks of [ProductCreate_fields]. *)
Ltac case_field_checks kw :=
  destruct (required str_validate kw "name");
  destruct (required str_validate kw "brand");
  destruct (with_default (optional str_validate) None kw "description");
  destruct (required (fun v => float_validate v ≫= ge 0) kw "price");
  destruct (with_default (optional str_validate) None kw "image_url");
  destruct (with_default (optional str_validate) None kw "category");
  destruct (with_default bool_validate true kw "in_stock");
  destruct (with_default (optional list_str_validate) (Some []) kw "features").

(** ** Sample data

    Library behaviours for the examples: no lax coercion, every address
    taken as written, and [int] on unsigned decimal text. *)
Definition no_lax_float : value -> option float := fun _ => None.

Definition no_lax_bool : value -> option bool := fun _ => None.

Definition email_as_written : string -> option string := fun s => Some s.

Fixpoint decimal_digits (s : string) (acc : Z) : option Z :=
  match s with
  | EmptyString => Some acc
  | String c r =>
      let n := N_of_ascii c in
      if (48 <=? n)%N && (n <=? 57)%N
      then decimal_digits r (10 * acc + Z.of_N (n - 48))
      else None
  end.

Definition decimal_int (s : string) : option Z :=
  match s with
  | EmptyString => None
  | _ => decimal_digits s 0
  end.

(** The message of [int] for a text it does not read, for plain text. *)
Definition int_error_text : string -> string :=
  fun s => "invalid literal for int() with base 10: '" +:+ s +:+ "'".

Definition sample_oid : ObjectId :=
  mkObjectId [x50; x7f; x1f; x77; xbc; xf8; x6c; xd7; x99; x43; x90; x11].

Definition empty_db : Database := mkDatabase ∅ 0 [].

Definition sample_body : document :=
  <["name" := VStr "Fridge X"]> (<["brand" := VStr "Acme"]> (<["price" := VFloat 499.5]> ∅)).

Definition sample_payload : ProductCreate.t :=
  ProductCreate.mk "Fridge X" "Acme" None 499.5 None None true (Some []).

Definition empty_name_body : document :=
  <["name" := VStr ""]> (<["brand" := VStr ""]> (<["price" := VFloat 1]> ∅)).

Definition old_payload : ProductCreate.t :=
  ProductCreate.mk "Washer" "Acme" (Some "Front loader") 250 None None false None.

(** A stored product with a field the product shape does not declare. *)
Definition legacy_doc : StoredDoc :=
  mkStoredDoc sample_oid (<["legacy" := VStr "kept"]> (ProductCreate_model_dump old_payload)).

Definition legacy_db : Database :=
  mkDatabase (<["product" := [legacy_doc]]> ∅) 1 [].

(** A stored product with a negative price. *)
Definition corrupt_doc : StoredDoc :=
  mkStoredDoc sample_oid (<["price" := VFloat (-5)]> (ProductCreate_model_dump old_payload)).

Definition corrupt_db : Database :=
  mkDatabase (<["product" := [corrupt_doc]]> ∅) 1 [].

Definition sample_message : ContactMessageIn.t :=
  ContactMessageIn.mk "Ann" "ann@example.org" "Hello".

(** A relay that refuses the connection. *)
Definition refusing_mail : Mail :=
  mkMail (fun _ => None) (fun _ _ => Some "Connection refused") None
         (fun _ _ => None) (fun _ => None) None.

Definition secret_environ : gmap string string := <["ADMIN_TOKEN" := "s3cret"]> ∅.

Definition empty_secret_environ : gmap string string := <["ADMIN_TOKEN" := ""]> ∅.

(** How a listed product relates to the stored document it comes from. *)
Definition listed (p : Product.t) (d : StoredDoc) : Prop :=
  Product.id p = ObjectId_str (_id d)
  /\ ProductCreate_fields (doc_fields d) = inl (Product.fields p).

(** More sample data. *)
Definition other_oid : ObjectId :=
  mkObjectId [x50; x7f; x1f; x77; xbc; xf8; x6c; xd7; x99; x43; x90; x12].

(** A store with two products, the first with a field of its own. *)
Definition two_products_db : Database :=
  mkDatabase
    (<["product" := [legacy_doc; mkStoredDoc other_oid (ProductCreate_model_dump old_payload)]]> ∅)
    2 [].

Definition sample_settings : SiteSettings.t :=
  SiteSettings.mk "Spring sale" "Everything must go." (Some "shop@example.org")
                  (Some "555-0100") None.

(** A store whose settings document holds a title only. *)
Definition titled_db : Database :=
  mkDatabase
    (<["sitesettings" := [mkStoredDoc sample_oid (<["hero_title" := VStr "Old title"]> ∅)]]> ∅)
    1 [].

(** A relay where every step goes through, and one that fails on closing. *)
Definition working_mail : Mail :=
  mkMail (fun _ => None) (fun _ _ => None) None (fun _ _ => None) (fun _ => None) None.

Definition closing_mail : Mail :=
  mkMail (fun _ => None) (fun _ _ => None) None (fun _ _ => None) (fun _ => None)
         (Some "Connection unexpectedly closed").

Definition relay_environ : gmap string string :=
  <["SMTP_HOST" := "mail.example.org"]> (<["SMTP_USER" := "shop@example.org"]> ∅).

(** * Properties *)

(** ** The codec *)

Lemma fromhex_hexlify_byte (b : byte) (rest : string) :
  fromhex (hexlify_byte b rest) = option_map (cons b) (fromhex rest).
Proof. destruct b; reflexivity. Qed.

Lemma fromhex_hexlify (bs : list byte) : fromhex (hexlify bs) = Some bs.
Proof.
  induction bs as [|b bs IH]; [reflexivity|].
  cbn [hexlify]. rewrite fromhex_hexlify_byte, IH. reflexivity.
Qed.

Lemma length_hexlify (bs : list byte) :
  String.length (hexlify bs) = (2 * List.length bs)%nat.
Proof.
  induction bs as [|b bs IH]; [reflexivity|].
  cbn [hexlify hexlify_byte String.length List.length]. lia.
Qed.

Lemma hexlify_inj (a b : list byte) : hexlify a = hexlify b -> a = b.
Proof.
  intros H. assert (Some a = Some b) as E; [|congruence].
  rewrite <- (fromhex_hexlify a), <- (fromhex_hexlify b), H. reflexivity.
Qed.

Lemma ObjectId_str_inj (x y : ObjectId) : ObjectId_str x = ObjectId_str y -> x = y.
Proof.
  destruct x as [a], y as [b]. unfold ObjectId_str. cbn [binary].
  intros H. f_equal. exact (hexlify_inj _ _ H).
Qed.

(** Induction on a text two characters at a time, as [fromhex] reads it. *)
Lemma string_ind2 (P : string -> Prop) :
  P "" ->
  (forall c, P (String c "")) ->
  (forall c1 c2 s, P s -> P (String c2 s) -> P (String c1 (String c2 s))) ->
  forall s, P s.
Proof.
  intros H0 H1 H2 s.
  assert (P s /\ forall c, P (String c s)) as [H _]; [|exact H].
  induction s as [|a s [IHs IHc]]; split; auto.
Qed.

Lemma digit_value_lower (c : ascii) (v : N) :
  digit_value c = Some v -> (v < 16)%N /\ hex_digit v = ascii_lower c.
Proof.
  destruct c as [[|] [|] [|] [|] [|] [|] [|] [|]]; vm_compute;
    intros H; inversion H; split; reflexivity.
Qed.

Lemma to_N_byte_of_N (n : N) : (n < 256)%N -> Byte.to_N (byte_of_N n) = n.
Proof.
  intros Hn. unfold byte_of_N.
  pose proof (Byte.to_of_N_option_map n) as H.
  destruct (Byte.of_N n) as [b|]; cbn in H.
  - destruct (N.leb_spec n 255); congruence.
  - destruct (N.leb_spec n 255); [discriminate | lia].
Qed.

Lemma hexlify_byte_digits (top bot : N) (rest : string) :
  (top < 16)%N -> (bot < 16)%N ->
  hexlify_byte (byte_of_N (top * 16 + bot)) rest
  = String (hex_digit top) (String (hex_digit bot) rest).
Proof.
  intros Ht Hb. unfold hexlify_byte. rewrite to_N_byte_of_N by lia.
  rewrite N.div_add_l, N.div_small, N.add_0_r by lia.
  rewrite N.add_comm, N.Div0.mod_add, N.mod_small by lia.
  reflexivity.
Qed.

(** A text of hexadecimal digits in pairs is read whole, and written back
    in lower case. *)
Lemma fromhex_hex_digits (t : string) :
  all_chars is_hex_digit t = true -> Nat.Even (String.length t) ->
  exists bs, fromhex t = Some bs
             /\ (2 * List.length bs)%nat = String.length t
             /\ hexlify bs = lower t.
Proof.
  induction t as [| c | c1 c2 t IH _] using string_ind2; intros Hall Hlen.
  - exists []. repeat split.
  - destruct Hlen as [k Hk]. cbn in Hk. lia.
  - cbn [all_chars] in Hall.
    apply andb_prop in Hall as [H1 Hall]. apply andb_prop in Hall as [H2 Hall].
    destruct IH as (bs & Hbs & Hl & Hx); [exact Hall| |].
    { destruct Hlen as [k Hk]. cbn [String.length] in Hk. exists (k - 1)%nat. lia. }
    unfold is_hex_digit in H1, H2.
    destruct (digit_value c1) as [top|] eqn:E1; [|discriminate].
    destruct (digit_value c2) as [bot|] eqn:E2; [|discriminate].
    apply digit_value_lower in E1 as E1'. apply digit_value_lower in E2 as E2'.
    destruct E1' as [Lt1 Lo1], E2' as [Lt2 Lo2].
    exists (byte_of_N (top * 16 + bot) :: bs).
    assert (Py_ISSPACE c1 = false) as Hsp.
    { clear -E1. destruct c1 as [[|] [|] [|] [|] [|] [|] [|] [|]];
        first [reflexivity | discriminate E1]. }
    cbn [fromhex]. rewrite Hsp, E1, E2, Hbs. cbn [option_map].
    repeat split.
    + cbn [List.length String.length]. lia.
    + cbn [hexlify lower]. rewrite hexlify_byte_digits by assumption.
      rewrite Hx, Lo1, Lo2. reflexivity.
Qed.

(** A character that is neither a hexadecimal digit nor ASCII whitespace
    makes [fromhex] fail, wherever it stands. *)
Lemma fromhex_bad_char (t : string) (c : ascii) :
  In c (list_ascii_of_string t) -> is_hex_digit c = false -> Py_ISSPACE c = false ->
  fromhex t = None.
Proof.
  intros Hin Hhex Hsp. revert Hin.
  induction t as [| a | c1 c2 t IH IH2] using string_ind2; intros Hin.
  - destruct Hin.
  - cbn in Hin. destruct Hin as [->|[]]. cbn [fromhex]. rewrite Hsp.
    destruct (digit_value c); reflexivity.
  - cbn [fromhex].
    destruct (Py_ISSPACE c1) eqn:S1.
    + apply IH2. cbn [list_ascii_of_string] in Hin. destruct Hin as [->|Hin]; [congruence|].
      exact Hin.
    + destruct (digit_value c1) as [top|] eqn:E1; [|reflexivity].
      destruct (digit_value c2) as [bot|] eqn:E2; [|reflexivity].
      rewrite IH; [reflexivity|].
      cbn [list_ascii_of_string] in Hin.
      destruct Hin as [->|[->|Hin]]; [| |exact Hin].
      * unfold is_hex_digit in Hhex. rewrite E1 in Hhex. discriminate.
      * unfold is_hex_digit in Hhex. rewrite E2 in Hhex. discriminate.
Qed.

Lemma is_valid_iff_new (t : string) :
  ObjectId_is_valid t = true <-> exists x, ObjectId_new t = Return x.
Proof.
  unfold ObjectId_is_valid. destruct t as [|c t].
  - split; [discriminate|]. intros [x Hx]. discriminate Hx.
  - destruct (ObjectId_new (String c t)) as [x|e].
    + split; eauto.
    + split; [discriminate|]. intros [x Hx]. discriminate Hx.
Qed.

Lemma is_valid_false_new (t : string) :
  (forall x, ObjectId_new t <> Return x) -> ObjectId_is_valid t = false.
Proof.
  intros H. destruct (ObjectId_is_valid t) eqn:E; [|reflexivity].
  apply is_valid_iff_new in E as [x Hx]. destruct (H x Hx).
Qed.

Lemma validate_invalid (t : string) :
  ObjectId_is_valid t = false ->
  PyObjectId_validate (inr t) = Raise (ValueError "Invalid ObjectId").
Proof. intros H. unfold PyObjectId_validate. rewrite H. reflexivity. Qed.

Lemma validate_valid (t : string) :
  ObjectId_is_valid t = true -> PyObjectId_validate (inr t) = ObjectId_new t.
Proof. intros H. unfold PyObjectId_validate. rewrite H. reflexivity. Qed.

Lemma ObjectId_new_str (x : ObjectId) :
  List.length (binary x) = 12%nat -> ObjectId_new (ObjectId_str x) = Return x.
Proof.
  intros H. destruct x as [b]. cbn [binary] in H.
  unfold ObjectId_new, ObjectId_str. cbn [binary].
  rewrite length_hexlify, H, fromhex_hexlify. reflexivity.
Qed.

Lemma ObjectId_new_wrong_length (t : string) :
  String.length t <> 24%nat -> ObjectId_new t = Raise (InvalidId t).
Proof.
  intros H. unfold ObjectId_new.
  destruct (Nat.eqb_spec (String.length t) 24); [contradiction | reflexivity].
Qed.

Lemma ObjectId_new_bad_char (t : string) (c : ascii) :
  In c (list_ascii_of_string t) -> is_hex_digit c = false -> Py_ISSPACE c = false ->
  ObjectId_new t = Raise (InvalidId t).
Proof.
  intros Hin Hh Hs. unfold ObjectId_new.
  rewrite (fromhex_bad_char t c Hin Hh Hs). destruct (_ =? _)%nat; reflexivity.
Qed.

Lemma is_valid_wrong_length (t : string) :
  String.length t <> 24%nat -> ObjectId_is_valid t = false.
Proof.
  intros H. apply is_valid_false_new. intros x.
  rewrite ObjectId_new_wrong_length by exact H. discriminate.
Qed.

Lemma is_valid_bad_char (t : string) (c : ascii) :
  In c (list_ascii_of_string t) -> is_hex_digit c = false -> Py_ISSPACE c = false ->
  ObjectId_is_valid t = false.
Proof.
  intros Hin Hh Hs. apply is_valid_false_new. intros x.
  rewrite (ObjectId_new_bad_char t c Hin Hh Hs). discriminate.
Qed.

(** C1 (as amended). Decoding the text of a 12-byte identifier gives the
    identifier back, so no two identifiers share a text. Decoding fails for
    every text that is not 24 characters long and for every text holding a
    character that is neither a hexadecimal digit nor ASCII whitespace. A
    text of 24 hexadecimal digits decodes to an identifier whose text is
    the lower-case form of the input: encoding after decoding is the
    identity on lower-case texts only, and upper-case digits are accepted. *)
Theorem codec_roundtrip :
  (forall x : ObjectId, List.length (binary x) = 12%nat ->
     ObjectId_is_valid (ObjectId_str x) = true
     /\ PyObjectId_validate (inr (ObjectId_str x)) = Return x)
  /\ (forall x y : ObjectId, ObjectId_str x = ObjectId_str y -> x = y)
  /\ (forall t : string, String.length t <> 24%nat ->
        ObjectId_is_valid t = false
        /\ PyObjectId_validate (inr t) = Raise (ValueError "Invalid ObjectId"))
  /\ (forall (t : string) (c : ascii),
        In c (list_ascii_of_string t) -> is_hex_digit c = false -> Py_ISSPACE c = false ->
        ObjectId_is_valid t = false
        /\ PyObjectId_validate (inr t) = Raise (ValueError "Invalid ObjectId"))
  /\ (forall t : string, String.length t = 24%nat -> all_chars is_hex_digit t = true ->
        exists x, PyObjectId_validate (inr t) = Return x
                  /\ List.length (binary x) = 12%nat
                  /\ ObjectId_str x = lower t).
Proof.
  repeat apply conj.
  - intros x Hx.
    assert (ObjectId_is_valid (ObjectId_str x) = true) as Hv.
    { apply is_valid_iff_new. exists x. apply ObjectId_new_str, Hx. }
    split; [exact Hv|]. rewrite (validate_valid _ Hv). apply ObjectId_new_str, Hx.
  - exact ObjectId_str_inj.
  - intros t Hlen.
    pose proof (is_valid_wrong_length t Hlen) as Hv.
    split; [exact Hv | exact (validate_invalid _ Hv)].
  - intros t c Hin Hh Hs.
    pose proof (is_valid_bad_char t c Hin Hh Hs) as Hv.
    split; [exact Hv | exact (validate_invalid _ Hv)].
  - intros t Hlen Hall.
    destruct (fromhex_hex_digits t Hall) as (bs & Hbs & Hl & Hx).
    { rewrite Hlen. exists 12%nat. reflexivity. }
    assert (ObjectId_new t = Return (mkObjectId bs)) as Hnew.
    { unfold ObjectId_new. rewrite Hlen, Hbs. reflexivity. }
    exists (mkObjectId bs). repeat split.
    + rewrite validate_valid; [exact Hnew|]. apply is_valid_iff_new. eauto.
    + cbn [binary]. lia.
    + exact Hx.
Qed.

(** ** Validation *)

Lemma mapM_str_validate_dump (l : list string) :
  mapM str_validate (VStr <$> l) = Some l.
Proof.
  induction l as [|s l IH]; [reflexivity|].
  cbn. rewrite IH. reflexivity.
Qed.

Lemma mapM_str_validate_inv (vs : list value) (l : list string) :
  mapM str_validate vs = Some l -> vs = VStr <$> l.
Proof.
  revert l. induction vs as [|v vs IH]; intros l H.
  - cbn in H. injection H as <-. reflexivity.
  - cbn in H. destruct v; try discriminate. cbn in H.
    destruct (mapM str_validate vs) as [l'|] eqn:E; [|discriminate].
    cbn in H. injection H as <-. rewrite (IH l' eq_refl). reflexivity.
Qed.

Lemma required_str_iff (kw : document) (key s : string) :
  required str_validate kw key = Some s <-> kw !! key = Some (VStr s).
Proof.
  unfold required. destruct (kw !! key) as [v|]; cbn.
  - destruct v; cbn; split; congruence.
  - split; discriminate.
Qed.

Lemma optional_str_iff (kw : document) (key : string) :
  passed (with_default (optional str_validate) None kw key) = true
  <-> text_if_present kw key.
Proof.
  statement_only.
  unfold with_default, text_if_present.
  destruct (kw !! key) as [v|]; [|cbn; tauto].
  destruct v; cbn; split; intros H; eauto; try discriminate;
    destruct H as [H|[H|[s H]]]; congruence.
Qed.

Lemma features_iff (kw : document) :
  passed (with_default (optional list_str_validate) (Some []) kw "features") = true
  <-> (kw !! "features" = None \/ kw !! "features" = Some VNone
       \/ exists l : list string, kw !! "features" = Some (VList (VStr <$> l))).
Proof.
  unfold with_default.
  destruct (kw !! "features") as [v|]; [|cbn; tauto].
  destruct v as [ | b | z | f | s | l]; cbn;
    try (split; intros H; eauto; try discriminate;
         destruct H as [H|[H|[s' H]]]; congruence).
  destruct (mapM str_validate l) as [l'|] eqn:E; cbn.
  - split; [intros _|reflexivity]. right. right. exists l'.
    rewrite (mapM_str_validate_inv _ _ E). reflexivity.
  - split; [discriminate|]. intros [H|[H|[l' H]]]; try discriminate.
    injection H as ->. rewrite mapM_str_validate_dump in E. discriminate.
Qed.

Lemma price_iff (kw : document) :
  passed (required (fun v => float_validate v ≫= ge 0) kw "price") = true
  <-> exists v f, kw !! "price" = Some v /\ float_validate v = Some f
                  /\ (0 <=? f)%float = true.
Proof.
  unfold required. destruct (kw !! "price") as [v|]; cbn.
  - destruct (float_validate v) as [f|] eqn:E; cbn.
    + unfold ge. destruct (0 <=? f)%float eqn:G; cbn.
      * split; [intros _; eauto|reflexivity].
      * split; [discriminate|]. intros (v' & f' & [= <-] & E' & G').
        rewrite E in E'. injection E' as <-. congruence.
    + split; [discriminate|]. intros (v' & f' & [= <-] & E' & _). congruence.
  - split; [discriminate|]. intros (v' & f' & H & _). discriminate.
Qed.

Lemma in_stock_iff (kw : document) :
  passed (with_default bool_validate true kw "in_stock") = true
  <-> (kw !! "in_stock" = None
       \/ exists v b, kw !! "in_stock" = Some v /\ bool_validate v = Some b).
Proof.
  unfold with_default. destruct (kw !! "in_stock") as [v|]; [|cbn; tauto].
  destruct (bool_validate v) as [b|] eqn:E; cbn.
  - split; [intros _; right; eauto|reflexivity].
  - split; [discriminate|]. intros [H|(v' & b & [= <-] & E')]; congruence.
Qed.

Lemma passed_Some {A} (x : option A) : passed x = true <-> exists a, x = Some a.
Proof. destruct x; cbn; split; eauto; try discriminate. intros [a H]. discriminate. Qed.

(** The eight checks decide the outcome: a record when all pass, the names
    of the failing fields otherwise. *)
Lemma ProductCreate_fields_cases (kw : document) :
  let checks :=
    [passed (required str_validate kw "name");
     passed (required str_validate kw "brand");
     passed (with_default (optional str_validate) None kw "description");
     passed (required (fun v => float_validate v ≫= ge 0) kw "price");
     passed (with_default (optional str_validate) None kw "image_url");
     passed (with_default (optional str_validate) None kw "category");
     passed (with_default bool_validate true kw "in_stock");
     passed (with_default (optional list_str_validate) (Some []) kw "features")] in
  (forallb (fun b => b) checks = true /\ exists p, ProductCreate_fields kw = inl p)
  \/ (forallb (fun b => b) checks = false
      /\ exists loc locs, ProductCreate_fields kw = inr (loc :: locs)).
Proof.
  unfold ProductCreate_fields.
  case_field_checks kw;
  cbn; eauto.
Qed.

Lemma ProductCreate_fields_inl (kw : document) (p : ProductCreate.t) :
  ProductCreate_fields kw = inl p ->
  required str_validate kw "name" = Some (ProductCreate.name p)
  /\ required str_validate kw "brand" = Some (ProductCreate.brand p)
  /\ required (fun v => float_validate v ≫= ge 0) kw "price" = Some (ProductCreate.price p).
Proof.
  unfold ProductCreate_fields.
  case_field_checks kw;
  cbn; intros H; try discriminate H.
  injection H as <-. auto.
Qed.

Lemma ProductCreate_fields_valid (kw : document) (p : ProductCreate.t) :
  ProductCreate_fields kw = inl p -> ProductCreate_valid p.
Proof.
  intros H. apply ProductCreate_fields_inl in H as (_ & _ & H).
  unfold required in H. destruct (kw !! "price") as [v|]; [|discriminate].
  cbn in H. destruct (float_validate v) as [f|]; [|discriminate].
  cbn in H. unfold ge in H. unfold ProductCreate_valid.
  destruct (0 <=? f)%float eqn:G; [|discriminate]. injection H as <-. exact G.
Qed.

Lemma ProductCreate_fields_accepts (kw : document) :
  (exists p, ProductCreate_fields kw = inl p) <-> ProductCreate_accepts kw.
Proof.
  unfold ProductCreate_accepts.
  rewrite <- !optional_str_iff, <- features_iff, <- price_iff, <- in_stock_iff.
  assert (forall k, (exists s, kw !! k = Some (VStr s))
                    <-> passed (required str_validate kw k) = true) as Hreq.
  { intros k. rewrite passed_Some. split; intros [s H]; exists s;
      apply required_str_iff; exact H. }
  rewrite !Hreq.
  destruct (ProductCreate_fields_cases kw) as [[Hall [p Hp]]|[Hall (loc & locs & Hl)]];
    cbn [forallb] in Hall.
  - split; [intros _|eauto].
    repeat (apply andb_prop in Hall as [? Hall]). repeat split; assumption.
  - split.
    + intros [p Hp]. congruence.
    + intros (H1 & H2 & H3 & H4 & H5 & H6 & H7 & H8).
      rewrite H1, H2, H3, H4, H5, H6, H7, H8 in Hall. discriminate.
Qed.

(** Validation reads the declared fields only. *)
Lemma ProductCreate_fields_ext (kw kw' : document) :
  (forall k, In k product_keys -> kw !! k = kw' !! k) ->
  ProductCreate_fields kw = ProductCreate_fields kw'.
Proof.
  intros H. unfold ProductCreate_fields, required, with_default.
  rewrite (H "name"), (H "brand"), (H "description"), (H "price"),
    (H "image_url"), (H "category"), (H "in_stock"), (H "features");
    first [reflexivity | cbn; tauto].
Qed.

Lemma dump_lookup_keys (p : ProductCreate.t) (k : string) :
  In k product_keys -> exists v, ProductCreate_model_dump p !! k = Some v.
Proof.
  cbn. intros [<-|[<-|[<-|[<-|[<-|[<-|[<-|[<-|[]]]]]]]]]; eexists; reflexivity.
Qed.

Lemma dump_lookup_other (p : ProductCreate.t) (k : string) :
  ~ In k product_keys -> ProductCreate_model_dump p !! k = None.
Proof.
  intros H. unfold ProductCreate_model_dump.
  repeat (rewrite lookup_insert_ne; [|intros <-; apply H; cbn; tauto]).
  apply lookup_empty.
Qed.

Lemma ProductCreate_fields_dump (p : ProductCreate.t) :
  ProductCreate_valid p -> ProductCreate_fields (ProductCreate_model_dump p) = inl p.
Proof.
  unfold ProductCreate_valid. destruct p as [n b d pr i c s f]. cbn. intros Hp.
  unfold ProductCreate_fields, required, with_default.
  change (ProductCreate_model_dump (ProductCreate.mk n b d pr i c s f) !! "name")
    with (Some (VStr n)).
  change (ProductCreate_model_dump (ProductCreate.mk n b d pr i c s f) !! "brand")
    with (Some (VStr b)).
  change (ProductCreate_model_dump (ProductCreate.mk n b d pr i c s f) !! "description")
    with (Some (dump_optional d)).
  change (ProductCreate_model_dump (ProductCreate.mk n b d pr i c s f) !! "price")
    with (Some (VFloat pr)).
  change (ProductCreate_model_dump (ProductCreate.mk n b d pr i c s f) !! "image_url")
    with (Some (dump_optional i)).
  change (ProductCreate_model_dump (ProductCreate.mk n b d pr i c s f) !! "category")
    with (Some (dump_optional c)).
  change (ProductCreate_model_dump (ProductCreate.mk n b d pr i c s f) !! "in_stock")
    with (Some (VBool s)).
  change (ProductCreate_model_dump (ProductCreate.mk n b d pr i c s f) !! "features")
    with (Some (match f with Some l => VList (VStr <$> l) | None => VNone end)).
  cbn [mbind option_bind str_validate float_validate bool_validate].
  unfold ge. rewrite Hp.
  assert (forall x, optional str_validate (dump_optional x) = Some x) as Ho
    by (intros [x|]; reflexivity).
  rewrite !Ho.
  destruct f as [l|]; cbn [optional list_str_validate fmap option_fmap option_map].
  - rewrite mapM_str_validate_dump. reflexivity.
  - reflexivity.
Qed.

(** Keyword arguments that carry a valid payload's dump and a text [id]
    make the [Product] with exactly these fields. *)
Lemma Product_new_dump (kw : document) (p : ProductCreate.t) (i : string) :
  ProductCreate_valid p ->
  (forall k, In k product_keys -> kw !! k = ProductCreate_model_dump p !! k) ->
  kw !! "id" = Some (VStr i) ->
  Product_new kw = Return (Product.mk p i).
Proof.
  intros Hv Hk Hi. unfold Product_new.
  rewrite (ProductCreate_fields_ext _ _ Hk), (ProductCreate_fields_dump p Hv).
  unfold required. rewrite Hi. reflexivity.
Qed.

Lemma Product_new_raises (kw : document) (e : Exn) :
  Product_new kw = Raise e -> exists locs, e = ValidationError "Product" locs.
Proof.
  unfold Product_new.
  destruct (ProductCreate_fields kw); destruct (required str_validate kw "id");
    intros [= <-]; eauto.
Qed.

(** ** The store *)

Lemma ObjectId_eqb_eq (a b : ObjectId) : ObjectId_eqb a b = true <-> a = b.
Proof.
  unfold ObjectId_eqb. rewrite bool_decide_eq_true.
  destruct a as [x], b as [y]. cbn. split; congruence.
Qed.

Lemma ObjectId_eqb_neq (a b : ObjectId) : ObjectId_eqb a b = false <-> a <> b.
Proof.
  rewrite <- ObjectId_eqb_eq. destruct (ObjectId_eqb a b); split; congruence.
Qed.

Lemma set_first_None (oid : ObjectId) (upd : document) (l : list StoredDoc) :
  Forall (fun d => _id d <> oid) l -> Collection.set_first oid upd l = None.
Proof.
  induction 1 as [|d l Hd _ IH]; [reflexivity|].
  cbn. apply ObjectId_eqb_neq in Hd. rewrite Hd, IH. reflexivity.
Qed.

Lemma set_first_Some (oid : ObjectId) (upd : document) (l l' : list StoredDoc) :
  Collection.set_first oid upd l = Some l' ->
  exists l1 d l2,
    l = (l1 ++ d :: l2)%list
    /\ Forall (fun x => _id x <> oid) l1
    /\ _id d = oid
    /\ l' = (l1 ++ mkStoredDoc (_id d) (upd ∪ doc_fields d) :: l2)%list.
Proof.
  revert l'. induction l as [|d l IH]; intros l' H; [discriminate|].
  cbn in H. destruct (ObjectId_eqb (_id d) oid) eqn:E.
  - injection H as <-. apply ObjectId_eqb_eq in E.
    exists [], d, l. repeat split; auto.
  - destruct (Collection.set_first oid upd l) as [r|]; [|discriminate].
    cbn in H. injection H as <-.
    destruct (IH r eq_refl) as (l1 & d' & l2 & -> & Hl1 & Hd & ->).
    exists (d :: l1), d', l2. repeat split; auto.
    constructor; [apply ObjectId_eqb_neq, E | exact Hl1].
Qed.

Lemma find_first_match (oid : ObjectId) (l1 l2 : list StoredDoc) (d : StoredDoc) :
  Forall (fun x => _id x <> oid) l1 -> _id d = oid ->
  List.find (Collection.matches (Some oid)) (l1 ++ d :: l2)%list = Some d.
Proof.
  intros Hl1 Hd. induction Hl1 as [|x l1 Hx _ IH]; cbn.
  - apply ObjectId_eqb_eq in Hd. rewrite Hd. reflexivity.
  - apply ObjectId_eqb_neq in Hx. rewrite Hx. exact IH.
Qed.

Lemma docs_insert_eq (m : gmap string (list StoredDoc)) (c : nat * N * list StoreOp)
    (coll : string) (l : list StoredDoc) :
  Collection.docs (mkDatabase (<[coll := l]> m) (snd (fst c)) (snd c)) coll = l.
Proof. unfold Collection.docs. cbn. rewrite lookup_insert_eq. reflexivity. Qed.

Lemma docs_insert_ne (D : Database) (n : N) (ops : list StoreOp)
    (coll other : string) (l : list StoredDoc) :
  other <> coll ->
  Collection.docs (mkDatabase (<[coll := l]> (collections D)) n ops) other
  = Collection.docs D other.
Proof.
  intros H. unfold Collection.docs. cbn. rewrite lookup_insert_ne by congruence.
  reflexivity.
Qed.

Lemma length_be_bytes (n : nat) (v : N) : List.length (be_bytes n v) = n.
Proof.
  revert v. induction n as [|n IH]; intros v; [reflexivity|].
  cbn [be_bytes]. rewrite List.length_app, IH. cbn. lia.
Qed.

Lemma is_valid_of_new (t : string) (oid : ObjectId) :
  ObjectId_new t = Return oid -> ObjectId_is_valid t = true.
Proof. intros H. apply is_valid_iff_new. eauto. Qed.

(** ** Update *)

Lemma update_product_invalid (product_id : string) (payload : ProductCreate.t)
    (s : option Database) :
  ObjectId_is_valid product_id = false ->
  update_product product_id payload s
  = (Raise (HTTPException 400 "Invalid product id"), s).
Proof. intros H. unfold update_product. rewrite H. reflexivity. Qed.

Lemma update_product_unmatched (product_id : string) (payload : ProductCreate.t)
    (oid : ObjectId) (D : Database) :
  ObjectId_new product_id = Return oid ->
  Forall (fun d => _id d <> oid) (Collection.docs D "product") ->
  update_product product_id payload (Some D)
  = (Raise (HTTPException 404 "Product not found"),
     Some (Collection.logged (OpUpdateOne "product") D)).
Proof.
  intros Hnew Hno. unfold update_product.
  rewrite (is_valid_of_new _ _ Hnew). cbn [negb].
  unfold bind, lift, on_db, raise. rewrite Hnew.
  unfold Collection.update_one. rewrite (set_first_None _ _ _ Hno). reflexivity.
Qed.

(** What a matched update leaves and returns, whatever the re-read makes of
    the document. *)
Lemma update_product_matched (product_id : string) (payload : ProductCreate.t)
    (oid : ObjectId) (D : Database) (l1 l2 : list StoredDoc) (d : StoredDoc) :
  ObjectId_new product_id = Return oid ->
  Collection.docs D "product" = (l1 ++ d :: l2)%list ->
  Forall (fun x => _id x <> oid) l1 -> _id d = oid ->
  let d' := mkStoredDoc (_id d) (ProductCreate_model_dump payload ∪ doc_fields d) in
  let D' := mkDatabase (<["product" := (l1 ++ d' :: l2)%list]> (collections D))
                       (counter D)
                       (OpFindOne "product" :: OpUpdateOne "product" :: oplog D) in
  update_product product_id payload (Some D) = (Product_new (with_id d'), Some D').
Proof.
  intros Hnew Hdocs Hl1 Hd d' D'. unfold update_product.
  rewrite (is_valid_of_new _ _ Hnew). cbn [negb].
  unfold bind, lift, on_db, raise. rewrite Hnew.
  unfold Collection.update_one.
  destruct (Collection.set_first oid (ProductCreate_model_dump payload)
              (Collection.docs D "product")) as [l'|] eqn:E.
  2:{ rewrite Hdocs in E. exfalso. clear -E Hl1 Hd.
      induction Hl1 as [|x l1 Hx _ IH]; cbn in E.
      - apply ObjectId_eqb_eq in Hd. rewrite Hd in E. discriminate.
      - apply ObjectId_eqb_neq in Hx. rewrite Hx in E.
        destruct (Collection.set_first _ _ _); [discriminate|]. apply IH. reflexivity. }
  assert (l' = (l1 ++ d' :: l2)%list) as ->.
  { rewrite Hdocs in E. clear -E Hl1 Hd. subst d'. revert l' E.
    induction Hl1 as [|x l1 Hx _ IH]; cbn; intros l' E.
    - apply ObjectId_eqb_eq in Hd. rewrite Hd in E. congruence.
    - apply ObjectId_eqb_neq in Hx. rewrite Hx in E.
      destruct (Collection.set_first _ _ _) as [r|]; [|discriminate].
      cbn in E. injection E as <-. f_equal. apply IH. reflexivity. }
  cbn [Nat.eqb]. unfold Collection.find_one, Collection.logged. cbn [collections counter oplog].
  unfold Collection.docs at 1. cbn [collections]. rewrite lookup_insert_eq. cbn [default from_option]. unfold id.
  rewrite (find_first_match oid l1 l2 d'); [reflexivity | exact Hl1 | exact Hd].
Qed.

Lemma update_product_Return (product_id : string) (payload : ProductCreate.t)
    (D : Database) (r : Product.t) (s' : option Database) :
  update_product product_id payload (Some D) = (Return r, s') ->
  exists oid l1 d l2,
    ObjectId_new product_id = Return oid
    /\ Collection.docs D "product" = (l1 ++ d :: l2)%list
    /\ Forall (fun x => _id x <> oid) l1 /\ _id d = oid.
Proof.
  intros H. unfold update_product in H.
  destruct (ObjectId_is_valid product_id) eqn:Hv; [|discriminate H].
  apply is_valid_iff_new in Hv as [oid Hnew]. exists oid.
  cbn [negb] in H. unfold bind, lift, on_db, raise in H. rewrite Hnew in H.
  unfold Collection.update_one in H.
  destruct (Collection.set_first oid (ProductCreate_model_dump payload)
              (Collection.docs D "product")) as [l'|] eqn:E; [|discriminate H].
  destruct (set_first_Some _ _ _ _ E) as (l1 & d & l2 & Hl & Hl1 & Hd & _).
  exists l1, d, l2. auto.
Qed.

(** ** Update errors *)

(** X23. An update whose path identifier [ObjectId.is_valid] rejects (in
    particular one that is not 24 characters long, or holds a character
    that is neither a hexadecimal digit nor whitespace) answers 400 and
    leaves the store as it was, with no call made to it. An update whose
    identifier decodes but matches no document answers 404 after the one
    [update_one] call, and no document is changed. *)
Theorem update_errors (product_id : string) (payload : ProductCreate.t) :
  (forall s : option Database,
     ObjectId_is_valid product_id = false ->
     update_product product_id payload s
     = (Raise (HTTPException 400 "Invalid product id"), s)
     /\ status_of (fst (update_product product_id payload s)) = Some 400%Z)
  /\ (String.length product_id <> 24%nat
      \/ (exists c, In c (list_ascii_of_string product_id)
                    /\ is_hex_digit c = false /\ Py_ISSPACE c = false) ->
      ObjectId_is_valid product_id = false)
  /\ (forall (oid : ObjectId) (D : Database),
        ObjectId_new product_id = Return oid ->
        Forall (fun d => _id d <> oid) (Collection.docs D "product") ->
        exists D',
          update_product product_id payload (Some D)
          = (Raise (HTTPException 404 "Product not found"), Some D')
          /\ status_of (fst (update_product product_id payload (Some D))) = Some 404%Z
          /\ collections D' = collections D
          /\ counter D' = counter D
          /\ oplog D' = OpUpdateOne "product" :: oplog D).
Proof.
  repeat apply conj.
  - intros s H. rewrite (update_product_invalid _ _ _ H). split; reflexivity.
  - intros [H|(c & Hin & Hh & Hs)].
    + exact (is_valid_wrong_length _ H).
    + exact (is_valid_bad_char _ c Hin Hh Hs).
  - intros oid D Hnew Hno.
    exists (Collection.logged (OpUpdateOne "product") D).
    rewrite (update_product_unmatched _ _ _ _ Hnew Hno). repeat split.
Qed.

Lemma with_id_lookup_keys (d : StoredDoc) (k : string) :
  In k product_keys -> with_id d !! k = doc_fields d !! k.
Proof.
  intros H. unfold with_id. apply lookup_insert_ne.
  intros <-. cbn in H. repeat (destruct H as [H|H]; [discriminate H|]). exact H.
Qed.

Lemma set_lookup_keys (p : ProductCreate.t) (old : document) (k : string) :
  In k product_keys ->
  (ProductCreate_model_dump p ∪ old) !! k = ProductCreate_model_dump p !! k.
Proof.
  intros H. destruct (dump_lookup_keys p k H) as [v Hv].
  rewrite Hv. apply lookup_union_Some_l. exact Hv.
Qed.

Lemma set_lookup_other (p : ProductCreate.t) (old : document) (k : string) :
  ~ In k product_keys -> (ProductCreate_model_dump p ∪ old) !! k = old !! k.
Proof.
  intros H. apply lookup_union_r. apply dump_lookup_other. exact H.
Qed.

(** C8 (as amended). A successful update leaves, at the matched document's
    place, a document with the same identifier whose fields are the
    payload's where the payload has a field and the prior record's
    elsewhere: every field of the product shape is overwritten, and a field
    of the prior record that the shape does not declare stays. A prior
    record with no such field is replaced whole. The other documents and
    collections are untouched, and the resource returned carries the
    payload and the identifier's text. *)
Theorem update_overwrites (product_id : string) (payload : ProductCreate.t)
    (D : Database) (r : Product.t) (s' : option Database) :
  ProductCreate_valid payload ->
  update_product product_id payload (Some D) = (Return r, s') ->
  exists (oid : ObjectId) (l1 l2 : list StoredDoc) (d : StoredDoc) (D' : Database),
    ObjectId_new product_id = Return oid
    /\ s' = Some D'
    /\ Collection.docs D "product" = (l1 ++ d :: l2)%list
    /\ Forall (fun x => _id x <> oid) l1
    /\ _id d = oid
    /\ Collection.docs D' "product"
       = (l1 ++ mkStoredDoc (_id d) (ProductCreate_model_dump payload ∪ doc_fields d)
             :: l2)%list
    /\ (forall coll, coll <> "product" -> Collection.docs D' coll = Collection.docs D coll)
    /\ (forall k, In k product_keys ->
          (ProductCreate_model_dump payload ∪ doc_fields d) !! k
          = ProductCreate_model_dump payload !! k)
    /\ (forall k, ~ In k product_keys ->
          (ProductCreate_model_dump payload ∪ doc_fields d) !! k = doc_fields d !! k)
    /\ ((forall k, ~ In k product_keys -> doc_fields d !! k = None) ->
        ProductCreate_model_dump payload ∪ doc_fields d = ProductCreate_model_dump payload)
    /\ r = Product.mk payload (ObjectId_str oid).
Proof.
  intros Hv H.
  destruct (update_product_Return _ _ _ _ _ H) as (oid & l1 & d & l2 & Hnew & Hdocs & Hl1 & Hd).
  rewrite (update_product_matched _ payload _ _ _ _ _ Hnew Hdocs Hl1 Hd) in H.
  rewrite (Product_new_dump _ payload (ObjectId_str oid) Hv) in H.
  2:{ intros k Hk. rewrite with_id_lookup_keys by exact Hk. cbn [doc_fields].
      apply set_lookup_keys, Hk. }
  2:{ unfold with_id. cbn [_id]. rewrite Hd. apply lookup_insert_eq. }
  injection H as <- <-.
  eexists oid, l1, l2, d, _. repeat apply conj; try reflexivity; try assumption.
  - unfold Collection.docs. cbn [collections]. rewrite lookup_insert_eq. reflexivity.
  - intros coll Hc. apply docs_insert_ne. exact Hc.
  - intros k Hk. apply set_lookup_keys, Hk.
  - intros k Hk. apply set_lookup_other, Hk.
  - intros Hnone. apply map_eq. intros k.
    destruct (decide (In k product_keys)) as [Hk|Hk].
    + apply set_lookup_keys, Hk.
    + rewrite set_lookup_other, dump_lookup_other by exact Hk. apply Hnone, Hk.
Qed.

(** ** Create *)

Lemma create_product_available (payload : ProductCreate.t) (D : Database) :
  ProductCreate_valid payload ->
  create_product payload (Some D)
  = (Return (Product.mk payload (ObjectId_str (mkObjectId (be_bytes 12 (counter D))))),
     Some (snd (Collection.insert_one "product" (ProductCreate_model_dump payload) D))).
Proof.
  intros Hv. unfold create_product, bind, lift, create_document.
  cbn [Collection.insert_one snd].
  erewrite (Product_new_dump _ payload _ Hv); [reflexivity| |apply lookup_insert_eq].
  intros k Hk. apply lookup_insert_ne.
  intros <-. cbn in Hk. repeat (destruct Hk as [Hk|Hk]; [discriminate Hk|]). exact Hk.
Qed.

(** C2. Create, given a valid payload and a store, returns a resource whose
    fields are the payload's, unchanged, with the text of the identifier the
    store assigned (24 characters) as [id]; the document stored under that
    identifier is the payload's dump. Whenever Create returns a resource at
    all, its fields are the payload's. *)
Theorem create_reproduces_payload (payload : ProductCreate.t) :
  ProductCreate_valid payload ->
  (forall D : Database,
     exists (oid : ObjectId) (D' : Database),
       create_product payload (Some D)
       = (Return (Product.mk payload (ObjectId_str oid)), Some D')
       /\ String.length (ObjectId_str oid) = 24%nat
       /\ Collection.docs D' "product"
          = (Collection.docs D "product"
             ++ [mkStoredDoc oid (ProductCreate_model_dump payload)])%list)
  /\ (forall (s s' : option Database) (r : Product.t),
        create_product payload s = (Return r, s') -> Product.fields r = payload).
Proof.
  intros Hv. split.
  - intros D. eexists _, _. rewrite (create_product_available _ _ Hv).
    split; [reflexivity|]. split.
    + unfold ObjectId_str. cbn [binary]. rewrite length_hexlify, length_be_bytes.
      reflexivity.
    + cbn [Collection.insert_one snd]. unfold Collection.docs at 1. cbn [collections].
      rewrite lookup_insert_eq. reflexivity.
  - intros [D|] s' r H.
    + rewrite (create_product_available _ _ Hv) in H. injection H as <- _. reflexivity.
    + discriminate H.
Qed.

(** ** List *)

Lemma list_products_loop_raises (docs : list StoredDoc) (d : StoredDoc)
    (result : list Product.t) :
  In d docs ->
  (exists e, Product_new (with_id d) = Raise e) ->
  exists locs, list_products_loop docs result = Raise (ValidationError "Product" locs).
Proof.
  revert result. induction docs as [|x docs IH]; intros result Hin Hbad; [destruct Hin|].
  cbn [list_products_loop].
  destruct (Product_new (with_id x)) as [p|e] eqn:E.
  - destruct Hin as [->|Hin].
    + destruct Hbad as [e He]. congruence.
    + apply IH; assumption.
  - destruct (Product_new_raises _ _ E) as [locs ->]. eauto.
Qed.

Lemma Product_new_not_accepted (d : StoredDoc) :
  ~ ProductCreate_accepts (doc_fields d) ->
  exists loc locs, Product_new (with_id d) = Raise (ValidationError "Product" (loc :: locs)).
Proof.
  intros Hno. unfold Product_new.
  rewrite (ProductCreate_fields_ext (with_id d) (doc_fields d))
    by (intros k Hk; apply with_id_lookup_keys, Hk).
  destruct (ProductCreate_fields_cases (doc_fields d))
    as [[_ [p Hp]]|[_ (loc & locs & Hl)]].
  - destruct Hno. apply ProductCreate_fields_accepts. eauto.
  - rewrite Hl. exists loc. eexists. reflexivity.
Qed.

Lemma price_not_ge_zero_not_accepted (kw : document) (f : float) :
  kw !! "price" = Some (VFloat f) -> (0 <=? f)%float = false ->
  ~ ProductCreate_accepts kw.
Proof.
  intros Hp Hneg (_ & _ & _ & (v & g & Hv & Hg & Hge) & _).
  rewrite Hp in Hv. injection Hv as <-. cbn in Hg. injection Hg as <-. congruence.
Qed.

(** C7. A stored product document that the product shape does not accept
    (one whose price is a number not at least 0, for instance) fails the
    mapping to the wire shape with a [ValidationError] that names a field.
    List raises it as soon as the collection holds such a document, and so
    does an update whose re-read meets one; neither returns the value. *)
Theorem corrupt_document_fails (d : StoredDoc) :
  ~ ProductCreate_accepts (doc_fields d) ->
  (exists loc locs,
     Product_new (with_id d) = Raise (ValidationError "Product" (loc :: locs)))
  /\ (forall D : Database,
        In d (Collection.docs D "product") ->
        exists locs D',
          list_products (Some D) = (Raise (ValidationError "Product" locs), Some D')
          /\ collections D' = collections D)
  /\ (forall (product_id : string) (payload : ProductCreate.t) (oid : ObjectId)
             (D : Database) (l1 l2 : list StoredDoc) (old : StoredDoc),
        ObjectId_new product_id = Return oid ->
        Collection.docs D "product" = (l1 ++ old :: l2)%list ->
        Forall (fun x => _id x <> oid) l1 -> _id old = oid ->
        d = mkStoredDoc (_id old) (ProductCreate_model_dump payload ∪ doc_fields old) ->
        exists locs D',
          update_product product_id payload (Some D)
          = (Raise (ValidationError "Product" locs), Some D')).
Proof.
  intros Hno. pose proof (Product_new_not_accepted d Hno) as (loc & locs & Hbad).
  repeat apply conj.
  - eauto.
  - intros D Hin. unfold list_products, bind, lift, get_documents.
    cbn [Collection.find].
    destruct (list_products_loop_raises (Collection.docs D "product") d [] Hin)
      as [locs' Hl]; [eauto|].
    rewrite Hl. eexists _, _. split; reflexivity.
  - intros product_id payload oid D l1 l2 old Hnew Hdocs Hl1 Hold ->.
    rewrite (update_product_matched _ payload _ _ _ _ _ Hnew Hdocs Hl1 Hold).
    rewrite Hbad. eexists _, _. reflexivity.
Qed.

Lemma price_taken_iff (v : value) :
  price_taken v <-> exists f, float_validate v = Some f /\ (0 <=? f)%float = true.
Proof.
  destruct v as [ | b | z | f | s | l]; cbn [price_taken float_validate];
    try reflexivity.
  - destruct (is_infinity (float_of_Z z)) eqn:E.
    + split; [intros [H _]; discriminate H | intros (f & H & _); discriminate H].
    + split.
      * intros [_ H]. eauto.
      * intros (f & [= <-] & H). auto.
  - split.
    + intros H. eauto.
    + intros (g & [= <-] & H). exact H.
Qed.

Lemma in_stock_taken_iff (v : value) :
  in_stock_taken v <-> exists b, bool_validate v = Some b.
Proof.
  destruct v as [ | b | z | f | s | l]; cbn [in_stock_taken bool_validate];
    try reflexivity.
  split; eauto.
Qed.

(** The spelled-out shape and the shape stated through the field readers
    take the same payloads. *)
Lemma ProductCreate_takes_accepts (kw : document) :
  ProductCreate_takes kw <-> ProductCreate_accepts kw.
Proof.
  unfold ProductCreate_takes, ProductCreate_accepts.
  assert ((exists v, kw !! "price" = Some v /\ price_taken v)
          <-> (exists v f, kw !! "price" = Some v /\ float_validate v = Some f
                           /\ (0 <=? f)%float = true)) as ->.
  { split.
    - intros (v & Hv & Ht). apply price_taken_iff in Ht as (f & Hf & Hge). eauto.
    - intros (v & f & Hv & Hf & Hge). exists v. split; [exact Hv|].
      apply price_taken_iff. eauto. }
  assert ((kw !! "in_stock" = None
           \/ exists v, kw !! "in_stock" = Some v /\ in_stock_taken v)
          <-> (kw !! "in_stock" = None
               \/ exists v b, kw !! "in_stock" = Some v /\ bool_validate v = Some b)) as ->.
  { split.
    - intros [H|(v & Hv & Ht)]; [auto|]. right.
      apply in_stock_taken_iff in Ht as [b Hb]. eauto.
    - intros [H|(v & b & Hv & Hb)]; [auto|]. right. exists v. split; [exact Hv|].
      apply in_stock_taken_iff. eauto. }
  reflexivity.
Qed.

(** C5 (as amended). Validation takes a payload exactly when name and brand
    are text; price is a float that is at least 0, an integer that [float]
    can hold and that is at least 0 as a float, or a value lax coercion
    reads as such a float; description, image_url and category are text
    when present; in_stock is a boolean, or a value lax coercion reads as
    one, when present; and features is a sequence of text when present. Any
    other payload fails with a [ValidationError] that names a field. The
    text of name and of brand may be empty: which text they hold makes no
    difference. *)
Theorem validation_accepts (kw : document) :
  ((exists p, ProductCreate_new kw = Return p) <-> ProductCreate_takes kw)
  /\ (forall p, ProductCreate_new kw = Return p ->
        ProductCreate_valid p
        /\ kw !! "name" = Some (VStr (ProductCreate.name p))
        /\ kw !! "brand" = Some (VStr (ProductCreate.brand p)))
  /\ (~ ProductCreate_takes kw ->
      exists loc locs,
        ProductCreate_new kw = Raise (ValidationError "ProductCreate" (loc :: locs)))
  /\ (forall s : string,
        ProductCreate_takes (<["name" := VStr s]> kw)
        <-> ProductCreate_takes (<["name" := VStr ""]> kw))
  /\ (forall s : string,
        ProductCreate_takes (<["brand" := VStr s]> kw)
        <-> ProductCreate_takes (<["brand" := VStr ""]> kw)).
Proof.
  assert (forall p, ProductCreate_new kw = Return p <-> ProductCreate_fields kw = inl p)
    as Hnew.
  { intros p. unfold ProductCreate_new.
    destruct (ProductCreate_fields kw); split; congruence. }
  repeat apply conj.
  - intros [p Hp]. apply ProductCreate_takes_accepts, ProductCreate_fields_accepts.
    exists p. apply Hnew, Hp.
  - intros Ha.
    apply ProductCreate_takes_accepts, ProductCreate_fields_accepts in Ha as [p Hp].
    exists p. apply Hnew, Hp.
  - intros p Hp. apply Hnew in Hp. split; [exact (ProductCreate_fields_valid _ _ Hp)|].
    apply ProductCreate_fields_inl in Hp as (Hn & Hb & _).
    split; apply required_str_iff; assumption.
  - intros Hno. unfold ProductCreate_new.
    destruct (ProductCreate_fields_cases kw) as [[_ [p Hp]]|[_ (loc & locs & Hl)]].
    + destruct Hno. apply ProductCreate_takes_accepts, ProductCreate_fields_accepts. eauto.
    + rewrite Hl. eauto.
  - intros s. unfold ProductCreate_takes, text_if_present.
    rewrite !lookup_insert_eq, !lookup_insert_ne by discriminate.
    split; intros (_ & H); (split; [eauto | exact H]).
  - intros s. unfold ProductCreate_takes, text_if_present.
    rewrite !lookup_insert_eq, !lookup_insert_ne by discriminate.
    split; intros (H1 & _ & H); (split; [exact H1 | split; [eauto | exact H]]).
Qed.

(** ** Settings *)

Lemma SiteSettings_new_empty : SiteSettings_new ∅ = Return SiteSettings_defaults.
Proof. reflexivity. Qed.

Lemma SiteSettings_new_dump_defaults :
  SiteSettings_new (SiteSettings_model_dump SiteSettings_defaults)
  = Return SiteSettings_defaults.
Proof. reflexivity. Qed.

Lemma get_settings_empty (D : Database) :
  Collection.docs D "sitesettings" = [] ->
  get_settings (Some D)
  = (Return SiteSettings_defaults,
     Some (snd (Collection.insert_one "sitesettings"
                  (SiteSettings_model_dump SiteSettings_defaults)
                  (Collection.logged (OpFindOne "sitesettings") D)))).
Proof.
  intros H. unfold get_settings, bind, on_db, lift, ret, create_document.
  cbn [Collection.find_one]. rewrite H. cbn [List.find].
  rewrite SiteSettings_new_empty. reflexivity.
Qed.

Lemma get_settings_seeded (D : Database) (d : StoredDoc) (rest : list StoredDoc) :
  Collection.docs D "sitesettings" = d :: rest ->
  doc_fields d = SiteSettings_model_dump SiteSettings_defaults ->
  get_settings (Some D)
  = (Return SiteSettings_defaults, Some (Collection.logged (OpFindOne "sitesettings") D)).
Proof.
  intros H Hd. unfold get_settings, bind, on_db, lift.
  cbn [Collection.find_one]. rewrite H. cbn [List.find Collection.matches].
  rewrite Hd, SiteSettings_new_dump_defaults. reflexivity.
Qed.

Lemma repeat_get_settings (n : nat) (D : Database) (d : StoredDoc) (rest : list StoredDoc) :
  Collection.docs D "sitesettings" = d :: rest ->
  doc_fields d = SiteSettings_model_dump SiteSettings_defaults ->
  exists Dn,
    repeat_call get_settings n (Some D) = (Return SiteSettings_defaults, Some Dn)
    /\ collections Dn = collections D.
Proof.
  revert D. induction n as [|n IH]; intros D H Hd; cbn [repeat_call].
  - rewrite (get_settings_seeded D d rest H Hd). eexists. split; reflexivity.
  - rewrite (get_settings_seeded D d rest H Hd). cbn [snd].
    destruct (IH (Collection.logged (OpFindOne "sitesettings") D)) as (Dn & Hn & Hc);
      [exact H | exact Hd |].
    exists Dn. split; [exact Hn | exact Hc].
Qed.

(** C6. On a store with no settings document, [get_settings] returns the
    declared defaults and leaves exactly one settings document, holding
    them; every later [get_settings] on the store it leaves returns the
    same values and changes no collection. *)
Theorem settings_defaults (D : Database) :
  Collection.docs D "sitesettings" = [] ->
  exists (D1 : Database) (oid : ObjectId),
    get_settings (Some D)
    = (Return (SiteSettings.mk "Premium White Goods"
                 "Reliable appliances for every home." None None None),
       Some D1)
    /\ Collection.docs D1 "sitesettings"
       = [mkStoredDoc oid (SiteSettings_model_dump SiteSettings_defaults)]
    /\ forall n : nat,
         exists Dn,
           repeat_call get_settings n (Some D1)
           = (Return (SiteSettings.mk "Premium White Goods"
                        "Reliable appliances for every home." None None None),
              Some Dn)
           /\ collections Dn = collections D1.
Proof.
  intros H. rewrite (get_settings_empty D H).
  eexists _, _. split; [reflexivity|].
  assert (Collection.docs
            (snd (Collection.insert_one "sitesettings"
                    (SiteSettings_model_dump SiteSettings_defaults)
                    (Collection.logged (OpFindOne "sitesettings") D))) "sitesettings"
          = [mkStoredDoc (mkObjectId (be_bytes 12 (counter D)))
               (SiteSettings_model_dump SiteSettings_defaults)]) as Hdocs.
  { cbn [Collection.insert_one snd]. unfold Collection.docs at 1. cbn [collections].
    rewrite lookup_insert_eq. cbn [default from_option]. unfold id.
    change (Collection.docs (Collection.logged (OpFindOne "sitesettings") D) "sitesettings")
      with (Collection.docs D "sitesettings").
    rewrite H. reflexivity. }
  split; [exact Hdocs|].
  intros n. exact (repeat_get_settings n _ _ [] Hdocs eq_refl).
Qed.

(** ** Contact *)

Lemma try_send_reports (mail : Mail) (payload : ContactMessageIn.t)
    (host : string) (port : Z) (user pass : option string) (to : string) :
  fst (try_send mail payload host port user pass to) = false ->
  exists e, snd (try_send mail payload host port user pass to) = Some e.
Proof.
  unfold try_send.
  destruct (build mail _) as [e|]; [eauto|].
  destruct (SMTP mail host port) as [e|]; [eauto|].
  destruct (quit mail) as [e|]; [eauto|].
  cbn [fst snd].
  match goal with |- negb (passed ?b) = false -> _ => destruct b as [e|] end;
    [eauto | discriminate].
Qed.

Lemma try_send_clean (mail : Mail) (payload : ContactMessageIn.t)
    (host : string) (port : Z) (user pass : option string) (to : string) :
  snd (try_send mail payload host port user pass to) = None
  <-> build mail (contact_message payload user to) = None
      /\ SMTP mail host port = None
      /\ starttls mail = None
      /\ login_step mail user pass = None
      /\ send_message mail (contact_message payload user to) = None
      /\ quit mail = None.
Proof.
  statement_only.
  unfold try_send.
  destruct (build mail _) as [e|]; [cbn; intuition discriminate|].
  destruct (SMTP mail host port) as [e|]; [cbn; intuition discriminate|].
  destruct (quit mail) as [e|]; [cbn; intuition discriminate|].
  destruct (starttls mail) as [e|]; [cbn; intuition discriminate|].
  destruct (login_step mail user pass) as [e|]; [cbn; intuition discriminate|].
  cbn. intuition.
Qed.

Lemma send_contact_message_stores (environ : gmap string string) (mail : Mail)
    (payload : ContactMessageIn.t) (D : Database) :
  snd (send_contact_message environ mail payload (Some D))
  = Some (snd (Collection.insert_one "contactmessage"
                 (ContactMessageIn_model_dump payload) D)).
Proof.
  unfold send_contact_message, bind, create_document, raise, ret.
  cbn [Collection.insert_one snd].
  destruct (int_of_str _); [|reflexivity].
  destruct (_ || _); [reflexivity|]. destruct (try_send _ _ _ _ _ _ _). reflexivity.
Qed.

Lemma try_send_build_fails (mail : Mail) (payload : ContactMessageIn.t)
    (host : string) (port : Z) (user pass : option string) (to e : string) :
  build mail (contact_message payload user to) = Some e ->
  try_send mail payload host port user pass to = (false, Some e).
Proof. intros H. unfold try_send. rewrite H. reflexivity. Qed.

Lemma try_send_connect_fails (mail : Mail) (payload : ContactMessageIn.t)
    (host : string) (port : Z) (user pass : option string) (to e : string) :
  build mail (contact_message payload user to) = None ->
  SMTP mail host port = Some e ->
  try_send mail payload host port user pass to = (false, Some e).
Proof. intros H1 H2. unfold try_send. rewrite H1, H2. reflexivity. Qed.

Lemma try_send_session_fails (mail : Mail) (payload : ContactMessageIn.t)
    (host : string) (port : Z) (user pass : option string) (to e : string) :
  build mail (contact_message payload user to) = None ->
  SMTP mail host port = None ->
  session_fails mail (contact_message payload user to) user pass e ->
  try_send mail payload host port user pass to = (false, Some (default e (quit mail))).
Proof.
  intros H1 H2 Hs. unfold try_send. rewrite H1, H2.
  destruct Hs as [H|[[H3 H]|(H3 & H4 & H)]].
  - rewrite H. destruct (quit mail); reflexivity.
  - rewrite H3, H. destruct (quit mail); reflexivity.
  - rewrite H3, H4, H. destruct (quit mail); reflexivity.
Qed.

Lemma send_contact_message_configured (environ : gmap string string) (mail : Mail)
    (payload : ContactMessageIn.t) (D : Database) (port : Z) (host to_email : string) :
  int_of_str (getenv_default environ "SMTP_PORT" "587") = Some port ->
  getenv environ "SMTP_HOST" = Some host -> host <> "" ->
  py_or (getenv environ "CONTACT_TO_EMAIL") (getenv environ "SMTP_USER") = Some to_email ->
  to_email <> "" ->
  fst (send_contact_message environ mail payload (Some D))
  = Return (mkContactReply true
              (fst (try_send mail payload host port (getenv environ "SMTP_USER")
                      (getenv environ "SMTP_PASS") to_email))
              (snd (try_send mail payload host port (getenv environ "SMTP_USER")
                      (getenv environ "SMTP_PASS") to_email))).
Proof.
  intros Hp Hh Hne Ht Hne'.
  unfold send_contact_message, bind, create_document, raise, ret.
  cbn [Collection.insert_one]. rewrite Hp, Hh, Ht.
  destruct host as [|c host]; [congruence|].
  destruct to_email as [|c' to_email]; [congruence|].
  cbn [falsy orb default from_option]. unfold id.
  destruct (try_send _ _ _ _ _ _ _). reflexivity.
Qed.

(** C9. Without a store the contact handler fails before anything else.
    With one, the message is appended to its collection by the handler's
    only store call, whatever follows. Every answer the handler gives says
    [stored], is exactly the not-configured answer when no relay host is
    set, and carries an error text whenever the notification was not sent.
    Once the port setting reads as a number the handler always answers,
    whatever the mail steps do; with a relay host and a destination set,
    the answer is free of an error exactly when no mail step raised, and a
    step that raises is reported with its own text: a failure to build the
    message or to connect gives [email_sent] false and that text as the
    error, and so does a failure inside the session, unless closing the
    session raises as well, in which case the text is that of the
    closing. *)
Theorem contact_submission (environ : gmap string string) (mail : Mail)
    (payload : ContactMessageIn.t) :
  send_contact_message environ mail payload None
  = (Raise (Exception "Database not available"), None)
  /\ (forall D : Database,
        exists (oid : ObjectId) (D' : Database),
          snd (send_contact_message environ mail payload (Some D)) = Some D'
          /\ Collection.docs D' "contactmessage"
             = (Collection.docs D "contactmessage"
                ++ [mkStoredDoc oid (ContactMessageIn_model_dump payload)])%list
          /\ oplog D' = OpInsertOne "contactmessage" :: oplog D)
  /\ (forall (s s' : option Database) (r : ContactReply),
        send_contact_message environ mail payload s = (Return r, s') ->
        stored r = true
        /\ (falsy (getenv environ "SMTP_HOST") = true ->
            r = mkContactReply true false (Some "SMTP not configured on server"))
        /\ (email_sent r = false -> exists e, error r = Some e))
  /\ (forall (D : Database) (port : Z),
        int_of_str (getenv_default environ "SMTP_PORT" "587") = Some port ->
        exists r,
          fst (send_contact_message environ mail payload (Some D)) = Return r
          /\ (forall host to_email : string,
                getenv environ "SMTP_HOST" = Some host -> host <> "" ->
                py_or (getenv environ "CONTACT_TO_EMAIL") (getenv environ "SMTP_USER")
                = Some to_email -> to_email <> "" ->
                let msg := contact_message payload (getenv environ "SMTP_USER") to_email in
                (error r = None
                 <-> build mail msg = None
                     /\ SMTP mail host port = None
                     /\ starttls mail = None
                     /\ login_step mail (getenv environ "SMTP_USER")
                          (getenv environ "SMTP_PASS") = None
                     /\ send_message mail msg = None
                     /\ quit mail = None)
                /\ (forall e, build mail msg = Some e ->
                      r = mkContactReply true false (Some e))
                /\ (forall e, build mail msg = None -> SMTP mail host port = Some e ->
                      r = mkContactReply true false (Some e))
                /\ (forall e, build mail msg = None -> SMTP mail host port = None ->
                      session_fails mail msg (getenv environ "SMTP_USER")
                        (getenv environ "SMTP_PASS") e ->
                      r = mkContactReply true false (Some (default e (quit mail)))))).
Proof.
  repeat apply conj.
  - reflexivity.
  - intros D. eexists _, _. rewrite send_contact_message_stores.
    split; [reflexivity|]. split; [|reflexivity].
    cbn [Collection.insert_one snd]. unfold Collection.docs at 1. cbn [collections].
    rewrite lookup_insert_eq. reflexivity.
  - intros [D|] s' r H; [|discriminate H].
    unfold send_contact_message, bind, create_document, raise, ret in H.
    cbn [Collection.insert_one] in H.
    destruct (int_of_str _) as [port|]; [|discriminate H].
    set (to_email := py_or (getenv environ "CONTACT_TO_EMAIL")
                           (getenv environ "SMTP_USER")) in H.
    destruct (falsy (getenv environ "SMTP_HOST")) eqn:Hh; cbn [orb] in H.
    + inversion H; subst. cbn [stored email_sent error].
      split; [reflexivity|]. split; [reflexivity|]. eauto.
    + destruct (falsy to_email) eqn:Ht.
      * inversion H; subst. cbn [stored email_sent error].
        split; [reflexivity|]. split; [discriminate|]. eauto.
      * destruct (try_send _ _ _ _ _ _ _) as [sent err] eqn:Et.
        inversion H; subst. cbn [stored email_sent error].
        split; [reflexivity|]. split; [discriminate|]. intros ->.
        pose proof (try_send_reports mail payload
                      (default "" (getenv environ "SMTP_HOST")) port
                      (getenv environ "SMTP_USER") (getenv environ "SMTP_PASS")
                      (default "" to_email)) as Hr.
        rewrite Et in Hr. exact (Hr eq_refl).
  - intros D port Hp.
    assert (exists r, fst (send_contact_message environ mail payload (Some D)) = Return r)
      as [r Hr].
    { unfold send_contact_message, bind, create_document, raise, ret.
      cbn [Collection.insert_one]. rewrite Hp.
      destruct (_ || _); [eexists; reflexivity|].
      destruct (try_send _ _ _ _ _ _ _). eexists. reflexivity. }
    exists r. split; [exact Hr|].
    intros host to_email Hhost Hne Hto Hne'.
    rewrite (send_contact_message_configured _ mail payload D _ _ _ Hp Hhost Hne Hto Hne')
      in Hr.
    injection Hr as <-. cbn zeta. cbn [error]. repeat apply conj.
    + apply try_send_clean.
    + apply try_send_clean.
    + intros e Hb. rewrite (try_send_build_fails _ _ _ _ _ _ _ _ Hb). reflexivity.
    + intros e Hb Hc. rewrite (try_send_connect_fails _ _ _ _ _ _ _ _ Hb Hc). reflexivity.
    + intros e Hb Hc Hs. rewrite (try_send_session_fails _ _ _ _ _ _ _ _ Hb Hc Hs).
      reflexivity.
Qed.

(** ** The admin gate *)

Lemma gate_unconfigured (environ : gmap string string) (x_admin_token : option string) :
  falsy (getenv environ "ADMIN_TOKEN") = true ->
  admin_token_required environ x_admin_token
  = Raise (HTTPException 500 "ADMIN_TOKEN not configured on server").
Proof. intros H. unfold admin_token_required. rewrite H. reflexivity. Qed.

Lemma gate_mismatch (environ : gmap string string) (x_admin_token : option string)
    (secret : string) :
  getenv environ "ADMIN_TOKEN" = Some secret -> secret <> "" ->
  x_admin_token <> Some secret ->
  admin_token_required environ x_admin_token
  = Raise (HTTPException 401 "Invalid admin token").
Proof.
  intros Hs Hne Hx. unfold admin_token_required. rewrite Hs.
  destruct secret as [|c secret]; [congruence|]. cbn [falsy].
  rewrite bool_decide_eq_false_2 by exact Hx. reflexivity.
Qed.

Lemma mutating_body_fails (environ : gmap string string) (x_admin_token : option string)
    (call : MutatingCall) (s : option Database) (e : Exn) :
  body_failure call = Some e ->
  mutating environ x_admin_token call s = (Raise e, s).
Proof. intros H. unfold mutating. rewrite H. reflexivity. Qed.

Lemma mutating_gate_raises (environ : gmap string string) (x_admin_token : option string)
    (call : MutatingCall) (s : option Database) (e : Exn) :
  body_failure call = None ->
  admin_token_required environ x_admin_token = Raise e ->
  mutating environ x_admin_token call s = (Raise e, s).
Proof. intros Hb H. unfold mutating. rewrite Hb, H. reflexivity. Qed.

Lemma body_failure_cases (call : MutatingCall) :
  (body_failure call = None
   /\ body_of call <> Some BodyInvalidJson /\ body_of call <> Some BodyUnreadable)
  \/ (body_failure call = Some (RequestValidationError ["body"])
      /\ body_of call = Some BodyInvalidJson)
  \/ (body_failure call = Some (HTTPException 400 "There was an error parsing the body")
      /\ body_of call = Some BodyUnreadable).
Proof.
  unfold body_failure. destruct (body_of call) as [[| |kw|]|]; auto;
    left; repeat split; discriminate.
Qed.

(** C3 (as amended). Whatever the gated call (create, update, delete of a
    product, update of the settings), whatever the token and whatever the
    state of the store: a call whose body cannot be read is refused before
    the gate, as a request validation failure when the body is not JSON and
    as a 400 otherwise; for every other call, with no server secret set the
    call fails with the 500 of a misconfigured server, whichever token is
    supplied, and with a secret set and a supplied token that differs from
    it, or none supplied, it fails with the 401 of an unauthorized caller.
    In all these cases the store is left as it was. *)
Theorem gate_closed (environ : gmap string string) (x_admin_token : option string)
    (call : MutatingCall) (s : option Database) :
  (body_of call = Some BodyInvalidJson ->
   mutating environ x_admin_token call s = (Raise (RequestValidationError ["body"]), s))
  /\ (body_of call = Some BodyUnreadable ->
      mutating environ x_admin_token call s
      = (Raise (HTTPException 400 "There was an error parsing the body"), s))
  /\ (body_of call <> Some BodyInvalidJson -> body_of call <> Some BodyUnreadable ->
      falsy (getenv environ "ADMIN_TOKEN") = true ->
      mutating environ x_admin_token call s
      = (Raise (HTTPException 500 "ADMIN_TOKEN not configured on server"), s))
  /\ (body_of call <> Some BodyInvalidJson -> body_of call <> Some BodyUnreadable ->
      forall secret : string,
        getenv environ "ADMIN_TOKEN" = Some secret -> secret <> "" ->
        x_admin_token <> Some secret ->
        mutating environ x_admin_token call s
        = (Raise (HTTPException 401 "Invalid admin token"), s)).
Proof.
  destruct (body_failure_cases call) as [(Hb & H1 & H2)|[[Hb H1]|[Hb H1]]];
    repeat apply conj; try (intros; congruence).
  - intros _ _ H. apply mutating_gate_raises; [exact Hb|]. apply gate_unconfigured, H.
  - intros _ _ secret Hs Hne Hx. apply mutating_gate_raises; [exact Hb|].
    exact (gate_mismatch _ _ _ Hs Hne Hx).
  - intros _. apply mutating_body_fails, Hb.
  - intros _. apply mutating_body_fails, Hb.
Qed.

(** C10 (as amended). With the server secret set to the empty text, every
    gated call whose body is read without error fails with the 500 of a
    misconfigured server; every gated call, those whose body cannot be read
    included, is refused with the store left as it was; and the gate lets
    no supplied token through, the empty text and no token included. *)
Theorem empty_secret_is_unconfigured (environ : gmap string string) :
  getenv environ "ADMIN_TOKEN" = Some "" ->
  (forall (x_admin_token : option string) (call : MutatingCall) (s : option Database),
     body_of call <> Some BodyInvalidJson -> body_of call <> Some BodyUnreadable ->
     mutating environ x_admin_token call s
     = (Raise (HTTPException 500 "ADMIN_TOKEN not configured on server"), s))
  /\ (forall (x_admin_token : option string) (call : MutatingCall) (s : option Database),
        exists e, mutating environ x_admin_token call s = (Raise e, s))
  /\ (forall (x_admin_token : option string) (b : bool),
        admin_token_required environ x_admin_token <> Return b).
Proof.
  intros H.
  assert (falsy (getenv environ "ADMIN_TOKEN") = true) as Hf by (rewrite H; reflexivity).
  repeat apply conj.
  - intros x call s H1 H2.
    destruct (body_failure_cases call) as [(Hb & _)|[[_ Hb]|[_ Hb]]]; try congruence.
    apply mutating_gate_raises; [exact Hb|]. apply gate_unconfigured, Hf.
  - intros x call s.
    destruct (body_failure_cases call) as [(Hb & _)|[[Hb _]|[Hb _]]].
    + eexists. apply mutating_gate_raises; [exact Hb|]. apply gate_unconfigured, Hf.
    + eexists. apply mutating_body_fails, Hb.
    + eexists. apply mutating_body_fails, Hb.
  - intros x b. rewrite (gate_unconfigured _ x Hf). discriminate.
Qed.

(** * Further properties of the handlers *)

(** ** What the identifier guard lets through *)

Lemma fromhex_chars (t : string) :
  forall bs : list byte,
    fromhex t = Some bs ->
    all_chars (fun c => is_hex_digit c || Py_ISSPACE c) t = true
    /\ (2 * List.length bs <= String.length t)%nat.
Proof.
  induction t as [| c | c1 c2 t IH IH2] using string_ind2; intros bs H.
  - injection H as <-. split; [reflexivity | cbn; lia].
  - cbn [fromhex] in H. destruct (Py_ISSPACE c) eqn:S1.
    + injection H as <-. cbn [all_chars]. rewrite S1, orb_true_r. split; [reflexivity|cbn; lia].
    + destruct (digit_value c); discriminate H.
  - cbn [fromhex] in H. destruct (Py_ISSPACE c1) eqn:S1.
    + destruct (IH2 bs H) as [Ha Hl]. split.
      * change (all_chars (fun c => is_hex_digit c || Py_ISSPACE c) (String c1 (String c2 t)))
          with ((is_hex_digit c1 || Py_ISSPACE c1)
                && all_chars (fun c => is_hex_digit c || Py_ISSPACE c) (String c2 t)).
        rewrite S1, orb_true_r, Ha. reflexivity.
      * cbn [String.length] in *. lia.
    + destruct (digit_value c1) as [top|] eqn:E1; [|discriminate H].
      destruct (digit_value c2) as [bot|] eqn:E2; [|discriminate H].
      destruct (fromhex t) as [bs'|] eqn:E; [|discriminate H].
      cbn [option_map] in H. injection H as <-.
      destruct (IH bs' eq_refl) as [Ha Hl]. split.
      * cbn [all_chars]. unfold is_hex_digit at 1 2. rewrite E1, E2, Ha. reflexivity.
      * cbn [String.length List.length]. lia.
Qed.

Lemma ObjectId_new_Return (t : string) (x : ObjectId) :
  ObjectId_new t = Return x ->
  String.length t = 24%nat /\ fromhex t = Some (binary x).
Proof.
  unfold ObjectId_new. destruct (Nat.eqb_spec (String.length t) 24); [|discriminate].
  destruct (fromhex t) as [b|]; [|discriminate]. intros [= <-]. auto.
Qed.

(** X1. [PyObjectId.validate] hands an [ObjectId] through unchanged and,
    for a text, either decodes it or raises [ValueError("Invalid ObjectId")]:
    the guard keeps the [InvalidId] of the constructor from ever getting
    out. A text it decodes has 24 characters, each a hexadecimal digit or
    ASCII whitespace, and gives at most 12 bytes. *)
Theorem validate_outcomes (v : ObjectId + string) :
  match PyObjectId_validate v with
  | Return x =>
      match v with
      | inl oid => x = oid
      | inr t =>
          ObjectId_new t = Return x
          /\ String.length t = 24%nat
          /\ all_chars (fun c => is_hex_digit c || Py_ISSPACE c) t = true
          /\ (List.length (binary x) <= 12)%nat
      end
  | Raise e =>
      e = ValueError "Invalid ObjectId"
      /\ exists t, v = inr t /\ ObjectId_is_valid t = false
  end.
Proof.
  destruct v as [oid|t]; [reflexivity|].
  unfold PyObjectId_validate.
  destruct (ObjectId_is_valid t) eqn:Hv; cbn [negb].
  - apply is_valid_iff_new in Hv as [x Hx]. rewrite Hx.
    destruct (ObjectId_new_Return t x Hx) as [Hl Hf].
    destruct (fromhex_chars t _ Hf) as [Ha Hb].
    repeat split; [exact Hl | exact Ha | lia].
  - split; [reflexivity|]. exists t. auto.
Qed.

(** ** When the gate opens *)

(** X2. The admin gate returns exactly when a non-empty secret is set and
    the supplied token is that secret; it then returns [True], and in every
    other case it raises. *)
Theorem gate_opens_iff (environ : gmap string string) (x_admin_token : option string)
    (b : bool) :
  admin_token_required environ x_admin_token = Return b
  <-> b = true
      /\ exists secret : string,
           secret <> "" /\ getenv environ "ADMIN_TOKEN" = Some secret
           /\ x_admin_token = Some secret.
Proof.
  unfold admin_token_required.
  destruct (getenv environ "ADMIN_TOKEN") as [[|c secret]|] eqn:E; cbn [falsy].
  - split; [discriminate|]. intros (_ & s & Hs & [= <-] & _). congruence.
  - destruct (bool_decide (x_admin_token = Some (String c secret))) eqn:Hd; cbn [negb].
    + apply bool_decide_eq_true in Hd. split.
      * intros [= <-]. split; [reflexivity|]. exists (String c secret).
        split; [discriminate | auto].
      * intros [-> _]. reflexivity.
    + apply bool_decide_eq_false in Hd. split; [discriminate|].
      intros (_ & s & _ & [= <-] & Hx). contradiction.
  - split; [discriminate|]. intros (_ & s & _ & Hs & _). discriminate.
Qed.

Lemma ProductCreate_new_not_accepted (kw : document) :
  ~ ProductCreate_accepts kw ->
  exists loc locs,
    ProductCreate_new kw = Raise (ValidationError "ProductCreate" (loc :: locs)).
Proof.
  intros Hno. unfold ProductCreate_new.
  destruct (ProductCreate_fields_cases kw) as [[_ [p Hp]]|[_ (loc & locs & Hl)]].
  - destruct Hno. apply ProductCreate_fields_accepts. eauto.
  - rewrite Hl. eauto.
Qed.

(** X3. Behind an open gate, a create or update whose body is a JSON
    object that the product shape does not accept raises a request
    validation failure that names a field, before the handler runs: the
    store is left as it was, with no call made to it; for an update this
    holds whatever the path identifier, malformed ones included. *)
Theorem invalid_body_rejected (environ : gmap string string)
    (x_admin_token : option string) (body : document) (s : option Database) :
  admin_token_required environ x_admin_token = Return true ->
  ~ ProductCreate_takes body ->
  exists loc locs,
    mutating environ x_admin_token (POST_products (BodyObject body)) s
    = (Raise (RequestValidationError (loc :: locs)), s)
    /\ forall product_id : string,
         mutating environ x_admin_token (PUT_products product_id (BodyObject body)) s
         = (Raise (RequestValidationError (loc :: locs)), s).
Proof.
  intros Hg Hno.
  assert (~ ProductCreate_accepts body) as Hno'
    by (intros Ha; apply Hno, ProductCreate_takes_accepts, Ha).
  destruct (ProductCreate_new_not_accepted body Hno') as (loc & locs & Hn).
  exists loc, locs. unfold mutating, body_failure. cbn [body_of]. rewrite Hg.
  unfold bind, body_as. rewrite Hn. repeat split.
Qed.

(** ** Delete *)

Lemma remove_first_None (oid : ObjectId) (l : list StoredDoc) :
  Forall (fun d => _id d <> oid) l -> Collection.remove_first oid l = None.
Proof.
  induction 1 as [|d l Hd _ IH]; [reflexivity|].
  cbn. apply ObjectId_eqb_neq in Hd. rewrite Hd, IH. reflexivity.
Qed.

Lemma remove_first_match (oid : ObjectId) (l1 l2 : list StoredDoc) (d : StoredDoc) :
  Forall (fun x => _id x <> oid) l1 -> _id d = oid ->
  Collection.remove_first oid (l1 ++ d :: l2)%list = Some (l1 ++ l2)%list.
Proof.
  intros Hl1 Hd. induction Hl1 as [|x l1 Hx _ IH]; cbn.
  - apply ObjectId_eqb_eq in Hd. rewrite Hd. reflexivity.
  - apply ObjectId_eqb_neq in Hx. rewrite Hx, IH. reflexivity.
Qed.

Lemma delete_product_unmatched (product_id : string) (oid : ObjectId) (D : Database) :
  ObjectId_new product_id = Return oid ->
  Forall (fun d => _id d <> oid) (Collection.docs D "product") ->
  delete_product product_id (Some D)
  = (Raise (HTTPException 404 "Product not found"),
     Some (Collection.logged (OpDeleteOne "product") D)).
Proof.
  intros Hnew Hno. unfold delete_product.
  rewrite (is_valid_of_new _ _ Hnew). cbn [negb].
  unfold bind, lift, on_db, raise. rewrite Hnew.
  unfold Collection.delete_one. rewrite (remove_first_None _ _ Hno). reflexivity.
Qed.

Lemma delete_product_matched (product_id : string) (oid : ObjectId) (D : Database)
    (l1 l2 : list StoredDoc) (d : StoredDoc) :
  ObjectId_new product_id = Return oid ->
  Collection.docs D "product" = (l1 ++ d :: l2)%list ->
  Forall (fun x => _id x <> oid) l1 -> _id d = oid ->
  delete_product product_id (Some D)
  = (Return true,
     Some (mkDatabase (<["product" := (l1 ++ l2)%list]> (collections D)) (counter D)
                      (OpDeleteOne "product" :: oplog D))).
Proof.
  intros Hnew Hdocs Hl1 Hd. unfold delete_product.
  rewrite (is_valid_of_new _ _ Hnew). cbn [negb].
  unfold bind, lift, on_db, raise, ret. rewrite Hnew.
  unfold Collection.delete_one. rewrite Hdocs, (remove_first_match _ _ _ _ Hl1 Hd).
  reflexivity.
Qed.

(** X4. A delete whose path identifier the codec rejects answers 400 and
    leaves the store as it was, with no call made to it; one whose
    identifier decodes but matches no product answers 404 after the one
    [delete_one] call, and no document is removed. *)
Theorem delete_errors (product_id : string) :
  (forall s : option Database,
     ObjectId_is_valid product_id = false ->
     delete_product product_id s = (Raise (HTTPException 400 "Invalid product id"), s))
  /\ (forall (oid : ObjectId) (D : Database),
        ObjectId_new product_id = Return oid ->
        Forall (fun d => _id d <> oid) (Collection.docs D "product") ->
        exists D',
          delete_product product_id (Some D)
          = (Raise (HTTPException 404 "Product not found"), Some D')
          /\ collections D' = collections D
          /\ oplog D' = OpDeleteOne "product" :: oplog D).
Proof.
  split.
  - intros s H. unfold delete_product. rewrite H. reflexivity.
  - intros oid D Hnew Hno. rewrite (delete_product_unmatched _ _ _ Hnew Hno).
    eexists. repeat split.
Qed.

(** X5. A delete whose identifier matches removes the first product with
    that identifier and nothing else: the products before and after it stay
    in their order, every other collection is untouched, and the answer is
    the success flag. *)
Theorem delete_removes_first_match (product_id : string) (oid : ObjectId)
    (D : Database) (l1 l2 : list StoredDoc) (d : StoredDoc) :
  ObjectId_new product_id = Return oid ->
  Collection.docs D "product" = (l1 ++ d :: l2)%list ->
  Forall (fun x => _id x <> oid) l1 -> _id d = oid ->
  exists D',
    delete_product product_id (Some D) = (Return true, Some D')
    /\ Collection.docs D' "product" = (l1 ++ l2)%list
    /\ (forall coll, coll <> "product" -> Collection.docs D' coll = Collection.docs D coll)
    /\ oplog D' = OpDeleteOne "product" :: oplog D.
Proof.
  intros Hnew Hdocs Hl1 Hd.
  rewrite (delete_product_matched _ _ _ _ _ _ Hnew Hdocs Hl1 Hd).
  eexists. split; [reflexivity|]. split; [|split; [|reflexivity]].
  - unfold Collection.docs. cbn [collections]. rewrite lookup_insert_eq. reflexivity.
  - intros coll Hc. apply docs_insert_ne. exact Hc.
Qed.

(** X6. Once the only product with an identifier is deleted, the
    identifier is gone: a second delete and an update of it both answer
    404. *)
Theorem delete_then_gone (product_id : string) (oid : ObjectId) (D : Database)
    (l1 l2 : list StoredDoc) (d : StoredDoc) (payload : ProductCreate.t) :
  ObjectId_new product_id = Return oid ->
  Collection.docs D "product" = (l1 ++ d :: l2)%list ->
  Forall (fun x => _id x <> oid) l1 -> _id d = oid ->
  Forall (fun x => _id x <> oid) l2 ->
  exists D',
    delete_product product_id (Some D) = (Return true, Some D')
    /\ fst (delete_product product_id (Some D'))
       = Raise (HTTPException 404 "Product not found")
    /\ fst (update_product product_id payload (Some D'))
       = Raise (HTTPException 404 "Product not found").
Proof.
  intros Hnew Hdocs Hl1 Hd Hl2.
  rewrite (delete_product_matched _ _ _ _ _ _ Hnew Hdocs Hl1 Hd).
  eexists. split; [reflexivity|].
  assert (Forall (fun x => _id x <> oid)
            (Collection.docs
               (mkDatabase (<["product" := (l1 ++ l2)%list]> (collections D)) (counter D)
                           (OpDeleteOne "product" :: oplog D)) "product")) as Hno.
  { unfold Collection.docs. cbn [collections]. rewrite lookup_insert_eq.
    cbn [default from_option]. unfold id. apply Forall_app. split; assumption. }
  rewrite (delete_product_unmatched _ _ _ Hnew Hno).
  rewrite (update_product_unmatched _ payload _ _ Hnew Hno). split; reflexivity.
Qed.

(** ** Update keeps identities *)

Lemma set_first_ids (oid : ObjectId) (upd : document) (l l' : list StoredDoc) :
  Collection.set_first oid upd l = Some l' -> map _id l' = map _id l.
Proof.
  intros H. destruct (set_first_Some _ _ _ _ H) as (l1 & d & l2 & -> & _ & _ & ->).
  rewrite !map_app. reflexivity.
Qed.

(** X7. Whatever an update answers, it adds no product, removes none and
    changes no identifier: the identifiers of the product collection are
    the same, in the same order, afterwards, and every other collection is
    untouched. *)
Theorem update_keeps_identifiers (product_id : string) (payload : ProductCreate.t)
    (D : Database) :
  exists D',
    snd (update_product product_id payload (Some D)) = Some D'
    /\ map _id (Collection.docs D' "product") = map _id (Collection.docs D "product")
    /\ (forall coll, coll <> "product" -> Collection.docs D' coll = Collection.docs D coll)
    /\ counter D' = counter D.
Proof.
  unfold update_product. destruct (ObjectId_is_valid product_id) eqn:Hv; cbn [negb].
  2:{ exists D. repeat split. }
  apply is_valid_iff_new in Hv as [oid Hnew].
  unfold bind, lift, on_db, raise. rewrite Hnew. unfold Collection.update_one.
  destruct (Collection.set_first oid (ProductCreate_model_dump payload)
              (Collection.docs D "product")) as [l'|] eqn:E.
  2:{ eexists. split; [reflexivity|]. repeat split. }
  cbn [Nat.eqb Collection.find_one]. 
  match goal with
  | |- context [List.find ?f ?l] => destruct (List.find f l)
  end.
  - eexists. split; [reflexivity|]. split; [|split; [|reflexivity]].
    + unfold Collection.docs at 1. cbn [Collection.logged collections].
      rewrite lookup_insert_eq. exact (set_first_ids _ _ _ _ E).
    + intros coll Hc. unfold Collection.logged. cbn [collections counter oplog].
      apply docs_insert_ne. exact Hc.
  - eexists. split; [reflexivity|]. split; [|split; [|reflexivity]].
    + unfold Collection.docs at 1. cbn [Collection.logged collections].
      rewrite lookup_insert_eq. exact (set_first_ids _ _ _ _ E).
    + intros coll Hc. unfold Collection.logged. cbn [collections counter oplog].
      apply docs_insert_ne. exact Hc.
Qed.

(** X8. Update is idempotent: repeating a successful update with the same
    payload returns the same resource and leaves every collection as the
    first one left it. *)
Theorem update_idempotent (product_id : string) (payload : ProductCreate.t)
    (D : Database) (r : Product.t) (s' : option Database) :
  ProductCreate_valid payload ->
  update_product product_id payload (Some D) = (Return r, s') ->
  exists D' D'',
    s' = Some D'
    /\ update_product product_id payload (Some D') = (Return r, Some D'')
    /\ collections D'' = collections D'.
Proof.
  intros Hv H.
  destruct (update_product_Return _ _ _ _ _ H) as (oid & l1 & d & l2 & Hnew & Hdocs & Hl1 & Hd).
  rewrite (update_product_matched _ payload _ _ _ _ _ Hnew Hdocs Hl1 Hd) in H.
  set (d' := mkStoredDoc (_id d) (ProductCreate_model_dump payload ∪ doc_fields d)) in *.
  set (D' := mkDatabase (<["product" := (l1 ++ d' :: l2)%list]> (collections D))
                        (counter D)
                        (OpFindOne "product" :: OpUpdateOne "product" :: oplog D)) in *.
  assert (Collection.docs D' "product" = (l1 ++ d' :: l2)%list) as Hdocs'.
  { unfold Collection.docs, D'. cbn [collections]. rewrite lookup_insert_eq. reflexivity. }
  assert (mkStoredDoc (_id d') (ProductCreate_model_dump payload ∪ doc_fields d') = d')
    as Hsame.
  { unfold d'. cbn [_id doc_fields]. rewrite (assoc_L (∪)), (idemp_L (∪)). reflexivity. }
  pose proof (update_product_matched _ payload _ _ _ _ _ Hnew Hdocs' Hl1 Hd) as H2.
  cbn zeta in H2. rewrite Hsame in H2.
  injection H as Hr <-. rewrite Hr in H2.
  eexists D', _. split; [reflexivity|]. split; [exact H2|].
  unfold D'. cbn [collections]. apply insert_insert_eq.
Qed.

(** ** List *)

Lemma Product_new_with_id (d : StoredDoc) (p : ProductCreate.t) :
  ProductCreate_fields (doc_fields d) = inl p ->
  Product_new (with_id d) = Return (Product.mk p (ObjectId_str (_id d))).
Proof.
  intros H. unfold Product_new.
  rewrite (ProductCreate_fields_ext (with_id d) (doc_fields d))
    by (intros k Hk; apply with_id_lookup_keys, Hk).
  rewrite H. unfold required, with_id. rewrite lookup_insert_eq. reflexivity.
Qed.

Lemma list_products_loop_app (docs1 docs2 : list StoredDoc) (result : list Product.t) :
  list_products_loop (docs1 ++ docs2) result
  = match list_products_loop docs1 result with
    | Return r => list_products_loop docs2 r
    | Raise e => Raise e
    end.
Proof.
  revert result. induction docs1 as [|d docs1 IH]; intros result; [reflexivity|].
  cbn [app list_products_loop]. destruct (Product_new (with_id d)); [apply IH | reflexivity].
Qed.

Lemma list_products_loop_accepted (docs : list StoredDoc) (result : list Product.t) :
  Forall (fun d => ProductCreate_accepts (doc_fields d)) docs ->
  exists r,
    list_products_loop docs result = Return (result ++ r)%list /\ Forall2 listed r docs.
Proof.
  intros H. revert result. induction H as [|d docs Hd _ IH]; intros result.
  - exists []. rewrite app_nil_r. split; [reflexivity | constructor].
  - apply ProductCreate_fields_accepts in Hd as [p Hp].
    cbn [list_products_loop]. rewrite (Product_new_with_id d p Hp).
    destruct (IH (result ++ [Product.mk p (ObjectId_str (_id d))])%list) as (r & Hr & Hf).
    exists (Product.mk p (ObjectId_str (_id d)) :: r). split.
    + rewrite Hr, <- app_assoc. reflexivity.
    + constructor; [split; [reflexivity | exact Hp] | exact Hf].
Qed.

Lemma list_products_loop_Return (docs : list StoredDoc) (result r : list Product.t) :
  list_products_loop docs result = Return r ->
  Forall (fun d => ProductCreate_accepts (doc_fields d)) docs.
Proof.
  revert result. induction docs as [|d docs IH]; intros result H; [constructor|].
  cbn [list_products_loop] in H.
  destruct (Product_new (with_id d)) as [p|e] eqn:E; [|discriminate H].
  constructor; [|exact (IH _ H)].
  apply ProductCreate_fields_accepts.
  unfold Product_new in E.
  rewrite (ProductCreate_fields_ext (with_id d) (doc_fields d)) in E
    by (intros k Hk; apply with_id_lookup_keys, Hk).
  destruct (ProductCreate_fields (doc_fields d)) as [q|locs]; [eauto|].
  destruct (required str_validate (with_id d) "id"); discriminate E.
Qed.

Lemma list_products_run (D : Database) :
  list_products (Some D)
  = (list_products_loop (Collection.docs D "product") [],
     Some (Collection.logged (OpFind "product") D)).
Proof.
  unfold list_products, bind, lift, get_documents. cbn [Collection.find].
  destruct (list_products_loop (Collection.docs D "product") []); reflexivity.
Qed.

(** X9. When every stored product is accepted by the product shape, List
    returns one product per stored document, in store order, each with the
    text of its document's identifier and the document's validated fields;
    an empty collection gives an empty list. *)
Theorem list_products_returns_all (D : Database) :
  Forall (fun d => ProductCreate_accepts (doc_fields d)) (Collection.docs D "product") ->
  exists r,
    fst (list_products (Some D)) = Return r
    /\ Forall2 listed r (Collection.docs D "product")
    /\ map Product.id r
       = map (fun d => ObjectId_str (_id d)) (Collection.docs D "product")
    /\ List.length r = List.length (Collection.docs D "product").
Proof.
  intros H. rewrite list_products_run. cbn [fst].
  destruct (list_products_loop_accepted _ [] H) as (r & Hr & Hf).
  exists r. split; [exact Hr|]. split; [exact Hf|]. split.
  - clear Hr H. induction Hf as [|p d r docs [Hid _] _ IH]; [reflexivity|].
    cbn [map]. rewrite Hid, IH. reflexivity.
  - clear Hr H. induction Hf as [|p d r docs _ _ IH]; [reflexivity|].
    cbn [List.length]. rewrite IH. reflexivity.
Qed.

(** X10. List answers with a list exactly when every stored product is
    accepted by the product shape. Whatever it answers, it makes one [find]
    call and leaves every collection as it was; without a store it fails. *)
Theorem list_products_answers_iff (D : Database) :
  ((exists r, fst (list_products (Some D)) = Return r)
   <-> Forall (fun d => ProductCreate_accepts (doc_fields d)) (Collection.docs D "product"))
  /\ snd (list_products (Some D)) = Some (Collection.logged (OpFind "product") D)
  /\ list_products None = (Raise (Exception "Database not available"), None).
Proof.
  rewrite list_products_run. cbn [fst snd]. split; [|split; reflexivity].
  split.
  - intros [r Hr]. exact (list_products_loop_Return _ _ _ Hr).
  - intros H. destruct (list_products_loop_accepted _ [] H) as (r & Hr & _). eauto.
Qed.

(** ** Create, then the other handlers *)

Lemma docs_after_insert (coll : string) (doc : document) (D : Database) :
  Collection.docs (snd (Collection.insert_one coll doc D)) coll
  = (Collection.docs D coll ++ [mkStoredDoc (mkObjectId (be_bytes 12 (counter D))) doc])%list.
Proof.
  cbn [Collection.insert_one snd]. unfold Collection.docs at 1. cbn [collections].
  rewrite lookup_insert_eq. reflexivity.
Qed.

Lemma ObjectId_new_fresh (n : N) :
  ObjectId_new (ObjectId_str (mkObjectId (be_bytes 12 n))) = Return (mkObjectId (be_bytes 12 n)).
Proof. apply ObjectId_new_str. cbn [binary]. apply length_be_bytes. Qed.

(** X11. A product that was created is listed: when List answers [r]
    before a create, it answers [r] followed by the created product right
    after it. *)
Theorem create_then_list (payload : ProductCreate.t) (D : Database)
    (r : list Product.t) :
  ProductCreate_valid payload ->
  fst (list_products (Some D)) = Return r ->
  exists (p : Product.t) (D' : Database),
    create_product payload (Some D) = (Return p, Some D')
    /\ fst (list_products (Some D')) = Return (r ++ [p])%list.
Proof.
  intros Hv Hr. rewrite list_products_run in Hr. cbn [fst] in Hr.
  rewrite (create_product_available payload D Hv).
  eexists _, _. split; [reflexivity|].
  rewrite list_products_run. cbn [fst]. rewrite docs_after_insert.
  rewrite list_products_loop_app, Hr. cbn [list_products_loop].
  erewrite (Product_new_dump _ payload _ Hv); [reflexivity| |].
  - intros k Hk. rewrite with_id_lookup_keys by exact Hk. reflexivity.
  - unfold with_id. cbn [_id]. apply lookup_insert_eq.
Qed.

(** X12. The identifier Create returns is one Update takes: when the
    identifier the store assigns is new to the collection, updating the
    created product by the returned [id] succeeds and returns the new
    payload under the same [id]. *)
Theorem create_then_update (payload payload' : ProductCreate.t) (D : Database) :
  ProductCreate_valid payload -> ProductCreate_valid payload' ->
  Forall (fun d => _id d <> mkObjectId (be_bytes 12 (counter D)))
         (Collection.docs D "product") ->
  exists (p : Product.t) (D' : Database),
    create_product payload (Some D) = (Return p, Some D')
    /\ ObjectId_is_valid (Product.id p) = true
    /\ fst (update_product (Product.id p) payload' (Some D'))
       = Return (Product.mk payload' (Product.id p)).
Proof.
  intros Hv Hv' Hfresh. rewrite (create_product_available payload D Hv).
  eexists _, _. split; [reflexivity|]. cbn [Product.id].
  pose proof (ObjectId_new_fresh (counter D)) as Hnew.
  split; [exact (is_valid_of_new _ _ Hnew)|].
  rewrite (update_product_matched _ payload' _ _ _ _ _ Hnew
             (docs_after_insert "product" _ D) Hfresh eq_refl).
  cbn [fst]. apply (Product_new_dump _ payload' _ Hv').
  - intros k Hk. rewrite with_id_lookup_keys by exact Hk. cbn [doc_fields].
    apply set_lookup_keys, Hk.
  - unfold with_id. cbn [_id]. apply lookup_insert_eq.
Qed.

(** X13. Deleting a product right after creating it, by the [id] Create
    returned, succeeds and leaves the product collection as it was before
    the create, when the identifier the store assigns is new to the
    collection. *)
Theorem create_then_delete (payload : ProductCreate.t) (D : Database) :
  ProductCreate_valid payload ->
  Forall (fun d => _id d <> mkObjectId (be_bytes 12 (counter D)))
         (Collection.docs D "product") ->
  exists (p : Product.t) (D' D'' : Database),
    create_product payload (Some D) = (Return p, Some D')
    /\ delete_product (Product.id p) (Some D') = (Return true, Some D'')
    /\ Collection.docs D'' "product" = Collection.docs D "product".
Proof.
  intros Hv Hfresh. rewrite (create_product_available payload D Hv).
  eexists _, _, _. split; [reflexivity|]. cbn [Product.id].
  pose proof (ObjectId_new_fresh (counter D)) as Hnew.
  rewrite (delete_product_matched _ _ _ _ [] _ Hnew
             (docs_after_insert "product" _ D) Hfresh eq_refl).
  split; [reflexivity|].
  unfold Collection.docs at 1. cbn [collections]. rewrite lookup_insert_eq.
  cbn [default from_option]. unfold id. apply app_nil_r.
Qed.

(** ** Settings: put, and get after put *)

Lemma update_settings_empty (payload : SiteSettings.t) (D : Database) :
  Collection.docs D "sitesettings" = [] ->
  update_settings payload (Some D)
  = (Return payload,
     Some (snd (Collection.insert_one "sitesettings" (SiteSettings_model_dump payload)
                  (Collection.logged (OpFindOne "sitesettings") D)))).
Proof.
  intros H. unfold update_settings, bind, on_db, ret, create_document.
  cbn [Collection.find_one]. rewrite H. reflexivity.
Qed.

Lemma update_settings_existing (payload : SiteSettings.t) (D : Database)
    (d : StoredDoc) (rest : list StoredDoc) :
  Collection.docs D "sitesettings" = d :: rest ->
  update_settings payload (Some D)
  = (Return payload,
     Some (mkDatabase
             (<["sitesettings" :=
                  mkStoredDoc (_id d) (SiteSettings_model_dump payload ∪ doc_fields d) :: rest]>
                (collections D))
             (counter D)
             (OpUpdateOne "sitesettings" :: OpFindOne "sitesettings" :: oplog D))).
Proof.
  intros H. unfold update_settings, bind, on_db, ret.
  cbn [Collection.find_one]. rewrite H. cbn [List.find Collection.matches].
  unfold Collection.update_one.
  change (Collection.docs (Collection.logged (OpFindOne "sitesettings") D) "sitesettings")
    with (Collection.docs D "sitesettings").
  rewrite H. cbn [Collection.set_first].
  assert (ObjectId_eqb (_id d) (_id d) = true) as -> by (apply ObjectId_eqb_eq; reflexivity).
  reflexivity.
Qed.

(** X14. With a store, [update_settings] always returns the payload it was
    given. On a store with no settings document it creates one holding the
    payload; otherwise it overwrites the settings fields of the first
    settings document, keeps that document's identifier and its other
    fields, and leaves the later documents alone. No other collection is
    touched. *)
Theorem update_settings_effect (payload : SiteSettings.t) (D : Database) :
  exists D',
    update_settings payload (Some D) = (Return payload, Some D')
    /\ match Collection.docs D "sitesettings" with
       | [] =>
           exists oid,
             Collection.docs D' "sitesettings"
             = [mkStoredDoc oid (SiteSettings_model_dump payload)]
       | d :: rest =>
           Collection.docs D' "sitesettings"
           = mkStoredDoc (_id d) (SiteSettings_model_dump payload ∪ doc_fields d) :: rest
       end
    /\ forall coll, coll <> "sitesettings" -> Collection.docs D' coll = Collection.docs D coll.
Proof.
  destruct (Collection.docs D "sitesettings") as [|d rest] eqn:E.
  - rewrite (update_settings_empty payload D E). eexists. split; [reflexivity|]. split.
    + eexists. rewrite docs_after_insert.
      change (Collection.docs (Collection.logged (OpFindOne "sitesettings") D) "sitesettings")
        with (Collection.docs D "sitesettings").
      rewrite E. reflexivity.
    + intros coll Hc. cbn [Collection.insert_one snd]. 
      unfold Collection.docs. cbn [collections Collection.logged].
      rewrite lookup_insert_ne by congruence. reflexivity.
  - rewrite (update_settings_existing payload D d rest E). eexists. split; [reflexivity|].
    split.
    + unfold Collection.docs. cbn [collections]. rewrite lookup_insert_eq. reflexivity.
    + intros coll Hc. apply docs_insert_ne. exact Hc.
Qed.

Lemma SiteSettings_new_set (payload : SiteSettings.t) (old : document) :
  (forall e, SiteSettings.contact_email payload = Some e -> validate_email e = Some e) ->
  SiteSettings_new (SiteSettings_model_dump payload ∪ old) = Return payload.
Proof.
  intros He. destruct payload as [t s e p a]. cbn [SiteSettings.contact_email] in He.
  unfold SiteSettings_new, with_default.
  rewrite (lookup_union_Some_l _ old "hero_title" (VStr t)) by reflexivity.
  rewrite (lookup_union_Some_l _ old "hero_subtitle" (VStr s)) by reflexivity.
  rewrite (lookup_union_Some_l _ old "contact_email" (dump_optional e)) by reflexivity.
  rewrite (lookup_union_Some_l _ old "phone" (dump_optional p)) by reflexivity.
  rewrite (lookup_union_Some_l _ old "address" (dump_optional a)) by reflexivity.
  cbn [str_validate].
  assert (forall x, optional str_validate (dump_optional x) = Some x) as Ho
    by (intros [x|]; reflexivity).
  rewrite !Ho.
  assert (optional EmailStr_validate (dump_optional e) = Some e) as ->.
  { destruct e as [e|]; [|reflexivity]. cbn. rewrite (He e eq_refl). reflexivity. }
  reflexivity.
Qed.

(** X15. What was put is what is read: after [update_settings] with a
    payload whose contact address, if any, the address check takes as it
    is written, [get_settings] returns that payload, whatever the settings
    document held before. *)
Theorem put_then_get (payload : SiteSettings.t) (D : Database) :
  (forall e, SiteSettings.contact_email payload = Some e -> validate_email e = Some e) ->
  exists D' D'',
    update_settings payload (Some D) = (Return payload, Some D')
    /\ get_settings (Some D') = (Return payload, Some D'').
Proof.
  intros He.
  assert (forall (D1 : Database) (d : StoredDoc) (rest : list StoredDoc) (old : document),
            Collection.docs D1 "sitesettings" = d :: rest ->
            doc_fields d = SiteSettings_model_dump payload ∪ old ->
            get_settings (Some D1)
            = (Return payload, Some (Collection.logged (OpFindOne "sitesettings") D1)))
    as Hget.
  { intros D1 d rest old H1 Hd. unfold get_settings, bind, on_db, lift.
    cbn [Collection.find_one]. rewrite H1. cbn [List.find Collection.matches].
    rewrite Hd, (SiteSettings_new_set payload old He). reflexivity. }
  destruct (Collection.docs D "sitesettings") as [|d rest] eqn:E.
  - rewrite (update_settings_empty payload D E). eexists _, _. split; [reflexivity|].
    eapply (Hget _ _ [] ∅).
    + rewrite docs_after_insert.
      change (Collection.docs (Collection.logged (OpFindOne "sitesettings") D) "sitesettings")
        with (Collection.docs D "sitesettings").
      rewrite E. reflexivity.
    + cbn [doc_fields]. rewrite (right_id_L ∅ (∪)). reflexivity.
  - rewrite (update_settings_existing payload D d rest E). eexists _, _.
    split; [reflexivity|].
    eapply (Hget _ _ rest (doc_fields d)).
    + unfold Collection.docs. cbn [collections]. rewrite lookup_insert_eq. reflexivity.
    + reflexivity.
Qed.

(** X16. Neither settings handler multiplies the settings document: after
    [get_settings], and after [update_settings], the settings collection
    holds one document if it held none and as many as before otherwise, so
    a store with at most one settings document is left with exactly one. *)
Theorem settings_singleton (D : Database) :
  (exists D',
     snd (get_settings (Some D)) = Some D'
     /\ List.length (Collection.docs D' "sitesettings")
        = Nat.max 1 (List.length (Collection.docs D "sitesettings")))
  /\ (forall payload : SiteSettings.t,
        exists D',
          snd (update_settings payload (Some D)) = Some D'
          /\ List.length (Collection.docs D' "sitesettings")
             = Nat.max 1 (List.length (Collection.docs D "sitesettings"))).
Proof.
  split.
  - destruct (Collection.docs D "sitesettings") as [|d rest] eqn:E.
    + rewrite (get_settings_empty D E). eexists. split; [reflexivity|].
      rewrite docs_after_insert.
      change (Collection.docs (Collection.logged (OpFindOne "sitesettings") D) "sitesettings")
        with (Collection.docs D "sitesettings").
      rewrite E. reflexivity.
    + unfold get_settings, bind, on_db, lift. cbn [Collection.find_one]. rewrite E.
      cbn [List.find Collection.matches snd]. eexists. split; [reflexivity|].
      change (Collection.docs (Collection.logged (OpFindOne "sitesettings") D) "sitesettings")
        with (Collection.docs D "sitesettings").
      rewrite E. cbn [List.length]. lia.
  - intros payload. destruct (Collection.docs D "sitesettings") as [|d rest] eqn:E.
    + rewrite (update_settings_empty payload D E). eexists. split; [reflexivity|].
      rewrite docs_after_insert.
      change (Collection.docs (Collection.logged (OpFindOne "sitesettings") D) "sitesettings")
        with (Collection.docs D "sitesettings").
      rewrite E. reflexivity.
    + rewrite (update_settings_existing payload D d rest E). eexists.
      split; [reflexivity|].
      unfold Collection.docs. cbn [collections]. rewrite lookup_insert_eq.
      cbn [default from_option]. unfold id. cbn [List.length]. lia.
Qed.

(** ** Contact: what the answer says about the relay *)

Lemma try_send_sent (mail : Mail) (payload : ContactMessageIn.t)
    (host : string) (port : Z) (user pass : option string) (to : string) :
  fst (try_send mail payload host port user pass to) = true
  <-> build mail (contact_message payload user to) = None
      /\ SMTP mail host port = None
      /\ starttls mail = None
      /\ login_step mail user pass = None
      /\ send_message mail (contact_message payload user to) = None.
Proof.
  statement_only.
  unfold try_send.
  destruct (build mail _) as [e|]; [cbn; intuition discriminate|].
  destruct (SMTP mail host port) as [e|]; [cbn; intuition discriminate|].
  assert (forall (b : bool) (x : option string),
            fst (match quit mail with Some e => (b, Some e) | None => (b, x) end) = b) as Hq
    by (intros b x; destruct (quit mail); reflexivity).
  rewrite Hq.
  destruct (starttls mail) as [e|]; [cbn; intuition discriminate|].
  destruct (login_step mail user pass) as [e|]; [cbn; intuition discriminate|].
  destruct (send_message mail _) as [e|]; cbn; intuition discriminate.
Qed.

(** With a relay host and a destination set and a port that reads as a
    number, the answer is what the [try] block leaves. *)
Lemma send_contact_message_relay (environ : gmap string string) (mail : Mail)
    (payload : ContactMessageIn.t) (D : Database) (port : Z) (host to_email : string) :
  int_of_str (getenv_default environ "SMTP_PORT" "587") = Some port ->
  getenv environ "SMTP_HOST" = Some host -> host <> "" ->
  py_or (getenv environ "CONTACT_TO_EMAIL") (getenv environ "SMTP_USER") = Some to_email ->
  to_email <> "" ->
  fst (send_contact_message environ mail payload (Some D))
  = Return (mkContactReply true
              (fst (try_send mail payload host port (getenv environ "SMTP_USER")
                      (getenv environ "SMTP_PASS") to_email))
              (snd (try_send mail payload host port (getenv environ "SMTP_USER")
                      (getenv environ "SMTP_PASS") to_email))).
Proof.
  intros Hp Hh Hne Ht Hne'.
  unfold send_contact_message, bind, create_document, raise, ret.
  cbn [Collection.insert_one]. rewrite Hp, Hh, Ht.
  destruct host as [|c host]; [congruence|].
  destruct to_email as [|c' to_email]; [congruence|].
  cbn [falsy orb default from_option]. unfold id.
  destruct (try_send _ _ _ _ _ _ _). reflexivity.
Qed.

(** X17. With a relay host and a destination set, the answer says
    [email_sent] exactly when building the message, connecting, securing
    the transport, the login and the sending all went through. A failure on
    closing the session after that is still reported: the answer then has
    [email_sent] true together with the error text. *)
Theorem contact_sent_iff (environ : gmap string string) (mail : Mail)
    (payload : ContactMessageIn.t) (D : Database) (port : Z) (host to_email : string) :
  int_of_str (getenv_default environ "SMTP_PORT" "587") = Some port ->
  getenv environ "SMTP_HOST" = Some host -> host <> "" ->
  py_or (getenv environ "CONTACT_TO_EMAIL") (getenv environ "SMTP_USER") = Some to_email ->
  to_email <> "" ->
  exists r,
    fst (send_contact_message environ mail payload (Some D)) = Return r
    /\ (email_sent r = true
        <-> build mail (contact_message payload (getenv environ "SMTP_USER") to_email) = None
            /\ SMTP mail host port = None
            /\ starttls mail = None
            /\ login_step mail (getenv environ "SMTP_USER") (getenv environ "SMTP_PASS")
               = None
            /\ send_message mail
                 (contact_message payload (getenv environ "SMTP_USER") to_email) = None)
    /\ (forall e, email_sent r = true -> quit mail = Some e ->
          r = mkContactReply true true (Some e))
    /\ (email_sent r = true -> quit mail = None -> r = mkContactReply true true None).
Proof.
  intros Hp Hh Hne Ht Hne'.
  rewrite (send_contact_message_relay _ mail payload D _ _ _ Hp Hh Hne Ht Hne').
  eexists. split; [reflexivity|]. cbn [email_sent]. split; [apply try_send_sent|].
  split.
  - intros e Hs Hq. rewrite Hs. f_equal.
    apply try_send_sent in Hs as (H1 & H2 & H3 & H4 & H5).
    unfold try_send. rewrite H1, H2, H3, H4, H5, Hq. reflexivity.
  - intros Hs Hq. rewrite Hs. f_equal.
    apply try_send_sent in Hs as (H1 & H2 & H3 & H4 & H5).
    unfold try_send. rewrite H1, H2, H3, H4, H5, Hq. reflexivity.
Qed.

Lemma try_send_without_login (mail : Mail) (login' : string -> string -> option string)
    (payload : ContactMessageIn.t) (host : string) (port : Z)
    (user pass : option string) (to : string) :
  falsy user || falsy pass = true ->
  try_send
    (mkMail (build mail) (SMTP mail) (starttls mail) login' (send_message mail) (quit mail))
    payload host port user pass to
  = try_send mail payload host port user pass to.
Proof.
  intros H. unfold try_send, login_step.
  cbn [build SMTP starttls login send_message quit]. rewrite H. reflexivity.
Qed.

(** X18. The login is left out unless both the user and the password are
    set: when either is unset or empty, the handler's outcome does not
    depend on what a login would do. *)
Theorem no_login_without_credentials (environ : gmap string string) (mail : Mail)
    (payload : ContactMessageIn.t) (s : option Database)
    (login' : string -> string -> option string) :
  falsy (getenv environ "SMTP_USER") || falsy (getenv environ "SMTP_PASS") = true ->
  send_contact_message environ
    (mkMail (build mail) (SMTP mail) (starttls mail) login' (send_message mail) (quit mail))
    payload s
  = send_contact_message environ mail payload s.
Proof.
  intros H. unfold send_contact_message, bind.
  destruct (create_document _ _ s) as [[u|e] s1]; [|reflexivity].
  destruct (int_of_str _) as [port|]; [|reflexivity].
  rewrite (try_send_without_login mail login' payload _ port _ _ _ H). reflexivity.
Qed.

(** X19. A port setting that does not read as a number fails the request
    with the [ValueError] that [int] raises for that setting, relay or no
    relay, after the message was stored: the message is in the store
    although the sender gets an error. *)
Theorem contact_bad_port (environ : gmap string string) (mail : Mail)
    (payload : ContactMessageIn.t) (D : Database) :
  int_of_str (getenv_default environ "SMTP_PORT" "587") = None ->
  exists (oid : ObjectId) (D' : Database),
    send_contact_message environ mail payload (Some D)
    = (Raise (ValueError (int_error (getenv_default environ "SMTP_PORT" "587"))), Some D')
    /\ Collection.docs D' "contactmessage"
       = (Collection.docs D "contactmessage"
          ++ [mkStoredDoc oid (ContactMessageIn_model_dump payload)])%list.
Proof.
  intros Hp. unfold send_contact_message, bind, create_document, raise.
  cbn [Collection.insert_one]. rewrite Hp. eexists _, _. split; [reflexivity|].
  unfold Collection.docs at 1. cbn [collections]. rewrite lookup_insert_eq. reflexivity.
Qed.

(** X20. A relay host alone is not enough: with neither a destination
    address nor a relay user set, the answer is the not-configured one and
    no mail step is taken, whatever the relay would do. *)
Theorem contact_no_destination (environ : gmap string string) (mail : Mail)
    (payload : ContactMessageIn.t) (D : Database) (port : Z) :
  int_of_str (getenv_default environ "SMTP_PORT" "587") = Some port ->
  falsy (getenv environ "CONTACT_TO_EMAIL") = true ->
  falsy (getenv environ "SMTP_USER") = true ->
  fst (send_contact_message environ mail payload (Some D))
  = Return (mkContactReply true false (Some "SMTP not configured on server")).
Proof.
  intros Hp Hc Hu. unfold send_contact_message, bind, create_document, raise, ret.
  cbn [Collection.insert_one]. rewrite Hp. unfold py_or. rewrite Hc, Hu.
  rewrite orb_true_r. reflexivity.
Qed.

(** X21. Messages only accumulate: two submissions in a row leave both
    messages at the end of the contact collection, in order, equal ones
    included; the handler makes one insert per submission, reads nothing,
    and touches no other collection. *)
Theorem contact_twice (environ : gmap string string) (mail : Mail)
    (first second : ContactMessageIn.t) (D : Database) :
  exists (D1 D2 : Database) (oid1 oid2 : ObjectId),
    snd (send_contact_message environ mail first (Some D)) = Some D1
    /\ snd (send_contact_message environ mail second (Some D1)) = Some D2
    /\ Collection.docs D2 "contactmessage"
       = (Collection.docs D "contactmessage"
          ++ [mkStoredDoc oid1 (ContactMessageIn_model_dump first);
              mkStoredDoc oid2 (ContactMessageIn_model_dump second)])%list
    /\ oplog D2 = OpInsertOne "contactmessage" :: OpInsertOne "contactmessage" :: oplog D
    /\ forall coll, coll <> "contactmessage" ->
         Collection.docs D2 coll = Collection.docs D coll.
Proof.
  eexists _, _, _, _. rewrite !send_contact_message_stores.
  split; [reflexivity|]. split; [reflexivity|]. split; [|split; [reflexivity|]].
  - rewrite !docs_after_insert, <- app_assoc. reflexivity.
  - intros coll Hc. cbn [Collection.insert_one snd].
    unfold Collection.docs. cbn [collections].
    rewrite !lookup_insert_ne by congruence. reflexivity.
Qed.

(** ** The connectivity report *)

Lemma char_count_prefix (n : nat) (s : string) :
  char_count (prefix n s) = Nat.min n (char_count s).
Proof.
  revert n. induction s as [|c s IH]; intros n.
  - cbn. lia.
  - cbn [prefix char_count]. destruct (is_continuation c) eqn:Hc.
    + cbn [char_count]. rewrite Hc. apply IH.
    + destruct n as [|n]; [reflexivity|].
      cbn [char_count]. rewrite Hc, IH. reflexivity.
Qed.

Lemma char_count_append (a b : string) :
  char_count (a +:+ b) = (char_count a + char_count b)%nat.
Proof.
  induction a as [|c a IH]; [reflexivity|].
  change (char_count (String c (a +:+ b)) = (char_count (String c a) + char_count b)%nat).
  cbn [char_count]. rewrite IH. destruct (is_continuation c); reflexivity.
Qed.

Lemma prefix_is_prefix (n : nat) (s : string) :
  exists rest, s = prefix n s +:+ rest.
Proof.
  revert n. induction s as [|c s IH]; intros n.
  - exists EmptyString. reflexivity.
  - cbn [prefix]. destruct (is_continuation c).
    + destruct (IH n) as [rest Hr]. exists rest.
      change (String c s = String c (prefix n s +:+ rest)). f_equal. exact Hr.
    + destruct n as [|n].
      * exists (String c s). reflexivity.
      * destruct (IH n) as [rest Hr]. exists rest.
        change (String c s = String c (prefix n s +:+ rest)). f_equal. exact Hr.
Qed.

Lemma prefix_all (n : nat) (s : string) :
  (char_count s <= n)%nat -> prefix n s = s.
Proof.
  revert n. induction s as [|c s IH]; intros n H; [reflexivity|].
  cbn [prefix char_count] in *. destruct (is_continuation c).
  - f_equal. apply IH, H.
  - destruct n as [|n]; [lia|]. f_equal. apply IH. lia.
Qed.

(** X22. The connectivity check reports [Connected], with the collection
    names, exactly when the store handle is there and listing the
    collections went through. When listing raises, the check still
    answers and lists no collection: after its fixed opening the text it
    gives quotes the error from its start, 80 characters of it when the
    error has more and all of it otherwise, so that the text is at most 80
    characters longer than the opening. Without a handle it reports neither
    the URL setting nor the database name. *)
Theorem test_database_report (environ : gmap string string) (db : option Database)
    (listing : string + list string) :
  (TestReport.connection_status (test_database environ db listing) = "Connected"
   <-> (exists D, db = Some D) /\ exists names, listing = inr names)
  /\ (forall names,
        TestReport.connection_status (test_database environ db listing) = "Connected" ->
        listing = inr names ->
        TestReport.collections (test_database environ db listing) = names)
  /\ (forall D e,
        db = Some D -> listing = inl e ->
        TestReport.collections (test_database environ db listing) = []
        /\ (exists quoted rest,
              TestReport.database (test_database environ db listing)
              = "⚠️ Connected but Error: " +:+ quoted
              /\ e = quoted +:+ rest
              /\ char_count quoted = Nat.min 80 (char_count e)
              /\ ((char_count e <= 80)%nat -> quoted = e))
        /\ (char_count (TestReport.database (test_database environ db listing))
            <= char_count "⚠️ Connected but Error: " + 80)%nat)
  /\ (db = None ->
      TestReport.database_url (test_database environ db listing) = None
      /\ TestReport.database_name (test_database environ db listing) = None
      /\ TestReport.collections (test_database environ db listing) = []).
Proof.
  repeat apply conj.
  - destruct db as [D|], listing as [e|names]; cbn; intros H; try discriminate H.
    split; eauto.
  - intros [[D ->] [names ->]]. reflexivity.
  - intros names Hc ->. destruct db; [reflexivity | discriminate Hc].
  - intros D e -> ->. cbn [test_database TestReport.collections TestReport.database].
    split; [reflexivity|]. split.
    + destruct (prefix_is_prefix 80 e) as [rest Hr].
      exists (prefix 80 e), rest. split; [reflexivity|]. split; [exact Hr|].
      split; [apply char_count_prefix|apply prefix_all].
    + rewrite char_count_append, char_count_prefix. lia.
  - intros ->. repeat split.
Qed.

End Backend.

(** * Concrete runs *)

(** The codec on an identifier: its text decodes to it. *)
Lemma codec_roundtrip_witness :
  ObjectId_is_valid (ObjectId_str sample_oid) = true
  /\ PyObjectId_validate (inr (ObjectId_str sample_oid)) = Return sample_oid.
Proof. exact (proj1 codec_roundtrip sample_oid eq_refl). Defined.

(** A text of upper-case hexadecimal digits is well-formed for the codec,
    and encoding what it decodes to does not give it back. *)
Lemma upper_case_identifier :
  ObjectId_is_valid "ABCDEFABCDEFABCDEFABCDEF" = true
  /\ PyObjectId_validate (inr "ABCDEFABCDEFABCDEFABCDEF")
     = PyObjectId_validate (inr "abcdefabcdefabcdefabcdef")
  /\ exists x,
       PyObjectId_validate (inr "ABCDEFABCDEFABCDEFABCDEF") = Return x
       /\ ObjectId_str x = "abcdefabcdefabcdefabcdef"
       /\ ObjectId_str x <> "ABCDEFABCDEFABCDEFABCDEF".
Proof.
  split; [reflexivity|]. split; [reflexivity|].
  eexists. split; [reflexivity|]. split; [reflexivity | discriminate].
Qed.

(** [bytes.fromhex] skips whitespace between pairs: a text of 24 characters
    with blanks in it is taken too, and gives fewer than 12 bytes. *)
Example blank_separated_identifier :
  ObjectId_is_valid "00 00 00 00 00 00 00 00 " = true
  /\ ObjectId_new "00 00 00 00 00 00 00 00 "
     = Return (mkObjectId [x00; x00; x00; x00; x00; x00; x00; x00]).
Proof. split; reflexivity. Qed.

Lemma create_reproduces_payload_witness :
  exists (oid : ObjectId) (D' : Database),
    create_product no_lax_float no_lax_bool sample_payload (Some empty_db)
    = (Return (Product.mk sample_payload (ObjectId_str oid)), Some D')
    /\ String.length (ObjectId_str oid) = 24%nat
    /\ Collection.docs D' "product"
       = (Collection.docs empty_db "product"
          ++ [mkStoredDoc oid (ProductCreate_model_dump sample_payload)])%list.
Proof.
  exact (proj1 (create_reproduces_payload no_lax_float no_lax_bool sample_payload eq_refl)
           empty_db).
Defined.

Lemma gate_closed_witness :
  mutating no_lax_float no_lax_bool email_as_written secret_environ (Some "guess")
    (POST_products (BodyObject sample_body)) (Some legacy_db)
  = (Raise (HTTPException 401 "Invalid admin token"), Some legacy_db).
Proof.
  apply (proj2 (proj2 (proj2 (gate_closed no_lax_float no_lax_bool email_as_written
                                secret_environ (Some "guess")
                                (POST_products (BodyObject sample_body))
                                (Some legacy_db)))))
    with (secret := "s3cret").
  - discriminate.
  - discriminate.
  - reflexivity.
  - discriminate.
  - discriminate.
Defined.

(** A create call whose body is not JSON is refused as a request validation
    failure before the gate is asked: with no secret set it is not the 500
    of a misconfigured server, and with a secret set and a wrong token it
    is not the 401 of an unauthorized caller. *)
Lemma unreadable_body_precedes_gate :
  falsy (getenv (∅ : gmap string string) "ADMIN_TOKEN") = true
  /\ mutating no_lax_float no_lax_bool email_as_written ∅ None
       (POST_products BodyInvalidJson) (Some empty_db)
     = (Raise (RequestValidationError ["body"]), Some empty_db)
  /\ mutating no_lax_float no_lax_bool email_as_written ∅ None
       (POST_products BodyInvalidJson) (Some empty_db)
     <> (Raise (HTTPException 500 "ADMIN_TOKEN not configured on server"), Some empty_db)
  /\ getenv secret_environ "ADMIN_TOKEN" = Some "s3cret"
  /\ mutating no_lax_float no_lax_bool email_as_written secret_environ (Some "guess")
       (POST_products BodyInvalidJson) (Some empty_db)
     = (Raise (RequestValidationError ["body"]), Some empty_db)
  /\ mutating no_lax_float no_lax_bool email_as_written secret_environ (Some "guess")
       (POST_products BodyInvalidJson) (Some empty_db)
     <> (Raise (HTTPException 401 "Invalid admin token"), Some empty_db).
Proof. repeat split; try reflexivity; discriminate. Qed.

(** C4. An update whose path identifier is 24 characters of digit pairs
    separated by blanks: the guard takes the text as valid although it is
    not 24 hexadecimal digits, the handler does not answer the 400 of an
    invalid identifier, and the store is reached with an [update_one]
    call. *)
Lemma blank_identifier_reaches_store :
  String.length "00 00 00 00 00 00 00 00 " = 24%nat
  /\ all_chars is_hex_digit "00 00 00 00 00 00 00 00 " = false
  /\ ObjectId_is_valid "00 00 00 00 00 00 00 00 " = true
  /\ fst (update_product no_lax_float no_lax_bool "00 00 00 00 00 00 00 00 "
            sample_payload (Some legacy_db))
     <> Raise (HTTPException 400 "Invalid product id")
  /\ exists D',
       update_product no_lax_float no_lax_bool "00 00 00 00 00 00 00 00 "
         sample_payload (Some legacy_db)
       = (Raise (HTTPException 404 "Product not found"), Some D')
       /\ oplog D' = OpUpdateOne "product" :: oplog legacy_db.
Proof.
  split; [reflexivity|]. split; [reflexivity|]. split; [reflexivity|].
  split; [discriminate|]. eexists. split; reflexivity.
Qed.

Lemma update_errors_witness :
  update_product no_lax_float no_lax_bool "not-an-id" sample_payload (Some legacy_db)
  = (Raise (HTTPException 400 "Invalid product id"), Some legacy_db)
  /\ status_of (fst (update_product no_lax_float no_lax_bool "not-an-id" sample_payload
                       (Some legacy_db))) = Some 400%Z.
Proof.
  apply (proj1 (update_errors no_lax_float no_lax_bool "not-an-id" sample_payload)
           (Some legacy_db)).
  reflexivity.
Defined.

Lemma validation_accepts_witness :
  ProductCreate_takes no_lax_float no_lax_bool sample_body.
Proof.
  apply (proj1 (proj1 (validation_accepts no_lax_float no_lax_bool sample_body))).
  exists sample_payload. reflexivity.
Defined.

(** A payload whose name and brand are empty text is taken. *)
Lemma empty_name_accepted :
  ProductCreate_new no_lax_float no_lax_bool empty_name_body
  = Return (ProductCreate.mk "" "" None 1 None None true (Some [])).
Proof. reflexivity. Qed.

(** An integer price is taken up to the largest that [float] holds, and
    from there on refused like a negative one; a price that is not a number
    is refused too. *)
Example price_integer_bounds :
  (exists p,
     ProductCreate_new no_lax_float no_lax_bool
       (<["price" := VInt (2 ^ 1024 - 2 ^ 970 - 1)]> sample_body) = Return p)
  /\ ProductCreate_new no_lax_float no_lax_bool
       (<["price" := VInt (2 ^ 1024 - 2 ^ 970)]> sample_body)
     = Raise (ValidationError "ProductCreate" ["price"])
  /\ ProductCreate_new no_lax_float no_lax_bool (<["price" := VInt (-1)]> sample_body)
     = Raise (ValidationError "ProductCreate" ["price"])
  /\ ProductCreate_new no_lax_float no_lax_bool (<["price" := VFloat nan]> sample_body)
     = Raise (ValidationError "ProductCreate" ["price"]).
Proof.
  split; [eexists; vm_compute; reflexivity|].
  repeat split; vm_compute; reflexivity.
Qed.

Lemma settings_defaults_witness :
  exists (D1 : Database) (oid : ObjectId),
    get_settings email_as_written (Some empty_db)
    = (Return (SiteSettings.mk "Premium White Goods"
                 "Reliable appliances for every home." None None None),
       Some D1)
    /\ Collection.docs D1 "sitesettings"
       = [mkStoredDoc oid (SiteSettings_model_dump SiteSettings_defaults)]
    /\ forall n : nat,
         exists Dn,
           repeat_call (get_settings email_as_written) n (Some D1)
           = (Return (SiteSettings.mk "Premium White Goods"
                        "Reliable appliances for every home." None None None),
              Some Dn)
           /\ collections Dn = collections D1.
Proof. exact (settings_defaults email_as_written empty_db eq_refl). Defined.

Lemma corrupt_document_fails_witness :
  exists locs D',
    list_products no_lax_float no_lax_bool (Some corrupt_db)
    = (Raise (ValidationError "Product" locs), Some D')
    /\ collections D' = collections corrupt_db.
Proof.
  apply (proj1 (proj2 (corrupt_document_fails no_lax_float no_lax_bool corrupt_doc
                         (price_not_ge_zero_not_accepted no_lax_float no_lax_bool
                            (doc_fields corrupt_doc) (-5) eq_refl eq_refl)))
           corrupt_db).
  left. reflexivity.
Defined.

Lemma update_overwrites_witness :
  exists (oid : ObjectId) (l1 l2 : list StoredDoc) (d : StoredDoc) (D' : Database),
    ObjectId_new "507f1f77bcf86cd799439011" = Return oid
    /\ snd (update_product no_lax_float no_lax_bool "507f1f77bcf86cd799439011"
              sample_payload (Some legacy_db)) = Some D'
    /\ Collection.docs legacy_db "product" = (l1 ++ d :: l2)%list
    /\ Collection.docs D' "product"
       = (l1 ++ mkStoredDoc (_id d)
                  (ProductCreate_model_dump sample_payload ∪ doc_fields d) :: l2)%list.
Proof.
  destruct (update_overwrites no_lax_float no_lax_bool "507f1f77bcf86cd799439011"
              sample_payload legacy_db
              (Product.mk sample_payload "507f1f77bcf86cd799439011")
              (snd (update_product no_lax_float no_lax_bool "507f1f77bcf86cd799439011"
                      sample_payload (Some legacy_db))))
    as (oid & l1 & l2 & d & D' & H1 & H2 & H3 & _ & _ & H6 & _).
  - reflexivity.
  - reflexivity.
  - exists oid, l1, l2, d, D'. auto.
Defined.

(** After a successful update the field the shape does not declare is
    still in the stored document, which is therefore not the payload's
    dump plus the identifier. *)
Lemma legacy_field_survives :
  fst (update_product no_lax_float no_lax_bool "507f1f77bcf86cd799439011"
         sample_payload (Some legacy_db))
  = Return (Product.mk sample_payload "507f1f77bcf86cd799439011")
  /\ exists D' d,
       snd (update_product no_lax_float no_lax_bool "507f1f77bcf86cd799439011"
              sample_payload (Some legacy_db)) = Some D'
       /\ Collection.docs D' "product" = [d]
       /\ _id d = sample_oid
       /\ doc_fields d !! "legacy" = Some (VStr "kept")
       /\ doc_fields d <> ProductCreate_model_dump sample_payload.
Proof.
  split; [reflexivity|].
  eexists _, _. split; [reflexivity|]. split; [reflexivity|].
  split; [reflexivity|]. split; [reflexivity|].
  intros E.
  assert (ProductCreate_model_dump sample_payload !! "legacy" = Some (VStr "kept")) as H
    by (rewrite <- E; reflexivity).
  discriminate H.
Qed.

Lemma contact_submission_witness :
  send_contact_message decimal_int int_error_text relay_environ refusing_mail
    sample_message None
  = (Raise (Exception "Database not available"), None)
  /\ exists r,
       fst (send_contact_message decimal_int int_error_text relay_environ refusing_mail
              sample_message (Some empty_db)) = Return r
       /\ r = mkContactReply true false (Some "Connection refused").
Proof.
  pose proof (contact_submission decimal_int int_error_text relay_environ refusing_mail
                sample_message) as (H1 & _ & _ & H4).
  split; [exact H1|].
  destruct (H4 empty_db 587%Z eq_refl) as (r & Hr & Hcases). exists r.
  split; [exact Hr|].
  assert ("mail.example.org" <> "") as Hh by discriminate.
  assert ("shop@example.org" <> "") as Ht by discriminate.
  destruct (Hcases "mail.example.org" "shop@example.org" eq_refl Hh eq_refl Ht)
    as (_ & _ & Hc & _).
  apply (Hc "Connection refused"); reflexivity.
Defined.

(** With no relay host set the answer is the not-configured one. *)
Example contact_not_configured_example :
  fst (send_contact_message decimal_int int_error_text ∅ refusing_mail sample_message (Some empty_db))
  = Return (mkContactReply true false (Some "SMTP not configured on server")).
Proof. reflexivity. Qed.

Lemma empty_secret_is_unconfigured_witness :
  (forall (x_admin_token : option string) (call : MutatingCall) (s : option Database),
     body_of call <> Some BodyInvalidJson -> body_of call <> Some BodyUnreadable ->
     mutating no_lax_float no_lax_bool email_as_written empty_secret_environ
       x_admin_token call s
     = (Raise (HTTPException 500 "ADMIN_TOKEN not configured on server"), s))
  /\ (forall (x_admin_token : option string) (call : MutatingCall) (s : option Database),
        exists e,
          mutating no_lax_float no_lax_bool email_as_written empty_secret_environ
            x_admin_token call s = (Raise e, s))
  /\ (forall (x_admin_token : option string) (b : bool),
        admin_token_required empty_secret_environ x_admin_token <> Return b).
Proof.
  exact (empty_secret_is_unconfigured no_lax_float no_lax_bool email_as_written
           empty_secret_environ eq_refl).
Defined.

(** With the secret set to the empty text, a settings update whose body is
    not JSON is refused as a request validation failure, not with the 500
    of a misconfigured server. *)
Lemma empty_secret_unreadable_body :
  getenv empty_secret_environ "ADMIN_TOKEN" = Some ""
  /\ mutating no_lax_float no_lax_bool email_as_written empty_secret_environ (Some "")
       (PUT_settings BodyInvalidJson) (Some empty_db)
     = (Raise (RequestValidationError ["body"]), Some empty_db)
  /\ mutating no_lax_float no_lax_bool email_as_written empty_secret_environ (Some "")
       (PUT_settings BodyInvalidJson) (Some empty_db)
     <> (Raise (HTTPException 500 "ADMIN_TOKEN not configured on server"), Some empty_db).
Proof. repeat split; try reflexivity; discriminate. Qed.

(** ** The specification's examples *)

(** Creating [{name: "Fridge X", brand: "Acme", price: 499.5}] with the
    right token answers the product with its defaults filled in and a
    24-character identifier. *)
Example post_products_example :
  fst (mutating no_lax_float no_lax_bool email_as_written secret_environ (Some "s3cret")
         (POST_products (BodyObject sample_body)) (Some empty_db))
  = Return (ProductReply
              (Product.mk
                 (ProductCreate.mk "Fridge X" "Acme" None 499.5 None None true (Some []))
                 "000000000000000000000000")).
Proof. reflexivity. Qed.

(** Updating a well-formed identifier that no document has answers 404. *)
Example put_absent_example :
  fst (mutating no_lax_float no_lax_bool email_as_written secret_environ (Some "s3cret")
         (PUT_products "000000000000000000000000" (BodyObject sample_body))
         (Some legacy_db))
  = Raise (HTTPException 404 "Product not found").
Proof. reflexivity. Qed.

(** A refused connection is reported in the answer; the message is stored. *)
Example contact_relay_refused_example :
  fst (send_contact_message decimal_int int_error_text
         (<["SMTP_HOST" := "mail.example.org"]> (<["SMTP_USER" := "shop@example.org"]> ∅))
         refusing_mail sample_message (Some empty_db))
  = Return (mkContactReply true false (Some "Connection refused")).
Proof. reflexivity. Qed.

(** A port setting that is not a number fails the request after the
    message was stored. *)
Example contact_bad_port_example :
  exists D',
    send_contact_message decimal_int int_error_text (<["SMTP_PORT" := "smtp"]> ∅) refusing_mail
      sample_message (Some empty_db)
    = (Raise (ValueError "invalid literal for int() with base 10: 'smtp'"), Some D')
    /\ List.length (Collection.docs D' "contactmessage") = 1%nat.
Proof. eexists. split; reflexivity. Qed.

(** * Concrete runs of the further properties *)

Lemma invalid_body_rejected_witness :
  exists loc locs,
    mutating no_lax_float no_lax_bool email_as_written secret_environ (Some "s3cret")
      (POST_products (BodyObject ∅)) (Some legacy_db)
    = (Raise (RequestValidationError (loc :: locs)), Some legacy_db)
    /\ forall product_id : string,
         mutating no_lax_float no_lax_bool email_as_written secret_environ (Some "s3cret")
           (PUT_products product_id (BodyObject ∅)) (Some legacy_db)
         = (Raise (RequestValidationError (loc :: locs)), Some legacy_db).
Proof.
  apply (invalid_body_rejected no_lax_float no_lax_bool email_as_written secret_environ
           (Some "s3cret") ∅ (Some legacy_db)).
  - reflexivity.
  - intros ((s & H) & _). discriminate H.
Defined.

Lemma delete_errors_witness :
  delete_product "not-an-id" (Some legacy_db)
  = (Raise (HTTPException 400 "Invalid product id"), Some legacy_db).
Proof. exact (proj1 (delete_errors "not-an-id") (Some legacy_db) eq_refl). Defined.

Lemma delete_removes_first_match_witness :
  exists D',
    delete_product "507f1f77bcf86cd799439012" (Some two_products_db) = (Return true, Some D')
    /\ Collection.docs D' "product" = ([legacy_doc] ++ [])%list
    /\ (forall coll, coll <> "product" ->
          Collection.docs D' coll = Collection.docs two_products_db coll)
    /\ oplog D' = OpDeleteOne "product" :: oplog two_products_db.
Proof.
  apply (delete_removes_first_match "507f1f77bcf86cd799439012" other_oid two_products_db
           [legacy_doc] []
           (mkStoredDoc other_oid (ProductCreate_model_dump old_payload))).
  - reflexivity.
  - reflexivity.
  - constructor; [discriminate | constructor].
  - reflexivity.
Defined.

Lemma delete_then_gone_witness :
  exists D',
    delete_product "507f1f77bcf86cd799439012" (Some two_products_db) = (Return true, Some D')
    /\ fst (delete_product "507f1f77bcf86cd799439012" (Some D'))
       = Raise (HTTPException 404 "Product not found")
    /\ fst (update_product no_lax_float no_lax_bool "507f1f77bcf86cd799439012"
              sample_payload (Some D'))
       = Raise (HTTPException 404 "Product not found").
Proof.
  apply (delete_then_gone no_lax_float no_lax_bool "507f1f77bcf86cd799439012" other_oid
           two_products_db [legacy_doc] []
           (mkStoredDoc other_oid (ProductCreate_model_dump old_payload)) sample_payload).
  - reflexivity.
  - reflexivity.
  - constructor; [discriminate | constructor].
  - reflexivity.
  - constructor.
Defined.

Lemma update_idempotent_witness :
  exists D' D'',
    snd (update_product no_lax_float no_lax_bool "507f1f77bcf86cd799439011"
           sample_payload (Some legacy_db)) = Some D'
    /\ update_product no_lax_float no_lax_bool "507f1f77bcf86cd799439011"
         sample_payload (Some D')
       = (Return (Product.mk sample_payload "507f1f77bcf86cd799439011"), Some D'')
    /\ collections D'' = collections D'.
Proof.
  apply (update_idempotent no_lax_float no_lax_bool "507f1f77bcf86cd799439011"
           sample_payload legacy_db
           (Product.mk sample_payload "507f1f77bcf86cd799439011")
           (snd (update_product no_lax_float no_lax_bool "507f1f77bcf86cd799439011"
                   sample_payload (Some legacy_db)))).
  - reflexivity.
  - reflexivity.
Defined.

Lemma list_products_returns_all_witness :
  exists r,
    fst (list_products no_lax_float no_lax_bool (Some two_products_db)) = Return r
    /\ Forall2 (listed no_lax_float no_lax_bool) r (Collection.docs two_products_db "product")
    /\ map Product.id r
       = map (fun d => ObjectId_str (_id d)) (Collection.docs two_products_db "product")
    /\ List.length r = List.length (Collection.docs two_products_db "product").
Proof.
  apply (list_products_returns_all no_lax_float no_lax_bool two_products_db).
  change (Collection.docs two_products_db "product")
    with [legacy_doc; mkStoredDoc other_oid (ProductCreate_model_dump old_payload)].
  constructor; [|constructor; [|constructor]];
    apply ProductCreate_fields_accepts; exists old_payload; reflexivity.
Defined.

Lemma create_then_list_witness :
  exists (p : Product.t) (D' : Database),
    create_product no_lax_float no_lax_bool sample_payload (Some legacy_db)
    = (Return p, Some D')
    /\ fst (list_products no_lax_float no_lax_bool (Some D'))
       = Return ([Product.mk old_payload "507f1f77bcf86cd799439011"] ++ [p])%list.
Proof.
  apply (create_then_list no_lax_float no_lax_bool sample_payload legacy_db
           [Product.mk old_payload "507f1f77bcf86cd799439011"]).
  - reflexivity.
  - reflexivity.
Defined.

Lemma create_then_update_witness :
  exists (p : Product.t) (D' : Database),
    create_product no_lax_float no_lax_bool old_payload (Some legacy_db)
    = (Return p, Some D')
    /\ ObjectId_is_valid (Product.id p) = true
    /\ fst (update_product no_lax_float no_lax_bool (Product.id p) sample_payload (Some D'))
       = Return (Product.mk sample_payload (Product.id p)).
Proof.
  apply (create_then_update no_lax_float no_lax_bool old_payload sample_payload legacy_db).
  - reflexivity.
  - reflexivity.
  - change (Collection.docs legacy_db "product") with [legacy_doc].
    constructor; [discriminate | constructor].
Defined.

Lemma create_then_delete_witness :
  exists (p : Product.t) (D' D'' : Database),
    create_product no_lax_float no_lax_bool sample_payload (Some legacy_db)
    = (Return p, Some D')
    /\ delete_product (Product.id p) (Some D') = (Return true, Some D'')
    /\ Collection.docs D'' "product" = Collection.docs legacy_db "product".
Proof.
  apply (create_then_delete no_lax_float no_lax_bool sample_payload legacy_db).
  - reflexivity.
  - change (Collection.docs legacy_db "product") with [legacy_doc].
    constructor; [discriminate | constructor].
Defined.

Lemma put_then_get_witness :
  exists D' D'',
    update_settings sample_settings (Some titled_db) = (Return sample_settings, Some D')
    /\ get_settings email_as_written (Some D') = (Return sample_settings, Some D'').
Proof.
  apply (put_then_get email_as_written sample_settings titled_db).
  intros e _. reflexivity.
Defined.

(** A relay that fails on closing, after the message went out. *)
Lemma contact_sent_iff_witness :
  exists r,
    fst (send_contact_message decimal_int int_error_text relay_environ closing_mail sample_message
           (Some empty_db)) = Return r
    /\ r = mkContactReply true true (Some "Connection unexpectedly closed").
Proof.
  destruct (contact_sent_iff decimal_int int_error_text relay_environ closing_mail sample_message empty_db
              587%Z "mail.example.org" "shop@example.org")
    as (r & Hr & Hiff & Hclose & _).
  - reflexivity.
  - reflexivity.
  - discriminate.
  - reflexivity.
  - discriminate.
  - exists r. split; [exact Hr|].
    apply Hclose; [|reflexivity].
    apply Hiff. repeat split.
Defined.

Lemma no_login_without_credentials_witness :
  send_contact_message decimal_int int_error_text relay_environ
    (mkMail (build working_mail) (SMTP working_mail) (starttls working_mail)
            (fun _ _ => Some "Authentication failed")
            (send_message working_mail) (quit working_mail))
    sample_message (Some empty_db)
  = send_contact_message decimal_int int_error_text relay_environ working_mail sample_message
      (Some empty_db).
Proof.
  apply (no_login_without_credentials decimal_int int_error_text relay_environ working_mail sample_message
           (Some empty_db) (fun _ _ => Some "Authentication failed")).
  reflexivity.
Defined.

Lemma contact_bad_port_witness :
  exists (oid : ObjectId) (D' : Database),
    send_contact_message decimal_int int_error_text (<["SMTP_PORT" := "smtp"]> relay_environ) working_mail
      sample_message (Some empty_db)
    = (Raise (ValueError "invalid literal for int() with base 10: 'smtp'"), Some D')
    /\ Collection.docs D' "contactmessage"
       = (Collection.docs empty_db "contactmessage"
          ++ [mkStoredDoc oid (ContactMessageIn_model_dump sample_message)])%list.
Proof.
  exact (contact_bad_port decimal_int int_error_text
           (<["SMTP_PORT" := "smtp"]> relay_environ) working_mail sample_message empty_db
           eq_refl).
Defined.

Lemma contact_no_destination_witness :
  fst (send_contact_message decimal_int int_error_text (<["SMTP_HOST" := "mail.example.org"]> ∅)
         working_mail sample_message (Some empty_db))
  = Return (mkContactReply true false (Some "SMTP not configured on server")).
Proof.
  apply (contact_no_destination decimal_int int_error_text (<["SMTP_HOST" := "mail.example.org"]> ∅)
           working_mail sample_message empty_db 587%Z).
  - reflexivity.
  - reflexivity.
  - reflexivity.
Defined.

Lemma test_database_report_witness :
  TestReport.collections
    (test_database ∅ (Some empty_db) (inl "ServerSelectionTimeoutError")) = []
  /\ (exists quoted rest,
        TestReport.database
          (test_database ∅ (Some empty_db) (inl "ServerSelectionTimeoutError"))
        = "⚠️ Connected but Error: " +:+ quoted
        /\ "ServerSelectionTimeoutError" = quoted +:+ rest
        /\ char_count quoted = Nat.min 80 (char_count "ServerSelectionTimeoutError")
        /\ ((char_count "ServerSelectionTimeoutError" <= 80)%nat
            -> quoted = "ServerSelectionTimeoutError"))
  /\ (char_count
        (TestReport.database
           (test_database ∅ (Some empty_db) (inl "ServerSelectionTimeoutError")))
      <= char_count "⚠️ Connected but Error: " + 80)%nat.
Proof.
  exact (proj1 (proj2 (proj2 (test_database_report ∅ (Some empty_db)
                               (inl "ServerSelectionTimeoutError"))))
           empty_db "ServerSelectionTimeoutError" eq_refl eq_refl).
Defined.

(** Cutting keeps whole characters: of 81 two-byte characters the first 80
    are quoted, all 160 bytes of them. *)
Example prefix_counts_characters :
  char_count (prefix 80 (String.concat "" (repeat "é" 81))) = 80%nat
  /\ String.length (prefix 80 (String.concat "" (repeat "é" 81))) = 160%nat.
Proof. split; reflexivity. Qed.
